(** * autoglow-backend: the order-taking HTTP handlers of [src/index.js]

    The three Express routes ([GET /api/products], [POST /api/orders],
    [GET /api/user/:phone]) are embedded as state-passing programs over an
    explicit model of the MySQL pool they talk to.  The data store is an
    external collaborator: every call the handlers make on it may succeed
    or fail, as decided by an environment record the theorems quantify
    over. *)

From Stdlib Require Import List String Ascii ZArith Bool Lia.
From Stdlib Require Import Permutation Sorted.
From Stdlib Require Import Floats.SpecFloat.
Import ListNotations.

Local Open Scope string_scope.
Local Open Scope Z_scope.
Local Open Scope list_scope.

(** ** JavaScript values, as [express.json()] hands them to a handler *)

Module Js.

(** A JSON document after [JSON.parse], plus [undefined], which is what
    reading an absent property yields.  Numbers are IEEE-754 doubles. *)
#[local] Unset Elimination Schemes.
Inductive value : Type :=
| JUndefined
| JNull
| JBool (b : bool)
| JNum (f : spec_float)
| JStr (s : string)
| JArr (elems : list value)
| JObj (props : list (string * value)).
#[local] Set Elimination Schemes.

(** An object is the list of its own properties; their names are
    distinct, [JSON.parse] having kept the last of any duplicates. *)
Definition object := list (string * value).

(** [ToBoolean]: the test behind [!x]. *)
Definition truthy (v : value) : bool :=
  match v with
  | JUndefined | JNull => false
  | JBool b => b
  | JNum (S754_zero _) | JNum S754_nan => false
  | JNum _ => true
  | JStr s => negb (String.eqb s "")
  | JArr _ | JObj _ => true
  end.

Fixpoint own (props : object) (key : string) : value :=
  match props with
  | [] => JUndefined
  | (k, v) :: rest => if String.eqb k key then v else own rest key
  end.

(** [v.key] for the keys the handlers read from request data ([customer],
    [items], [total], [paymentMethod], [phone], [name], [address],
    [price]): none of them is defined on a built-in prototype, so the read
    is the own property of an object and [undefined] on anything else.
    Reading a property of [null] or [undefined] throws; callers test
    [nullish] first. *)
Definition get (v : value) (key : string) : value :=
  match v with
  | JObj props => own props key
  | _ => JUndefined
  end.

Definition nullish (v : value) : bool :=
  match v with
  | JUndefined | JNull => true
  | _ => false
  end.

(** [v.length === 0] on a non-nullish [v].  An array has its element count,
    a string its code-unit count (zero only for the empty string); a plain
    object may carry an own [length] property; numbers and booleans have
    none, and [undefined === 0] is false.  Strict equality with [0] holds
    for the number zero of either sign only. *)
Definition length_is_zero (v : value) : bool :=
  match v with
  | JArr elems => match elems with [] => true | _ :: _ => false end
  | JStr s => String.eqb s ""
  | JObj props =>
      match own props "length" with
      | JNum (S754_zero _) => true
      | _ => false
      end
  | _ => false
  end.

(** Structural equality, used to compare key columns. *)
Definition float_eqb (a b : spec_float) : bool :=
  match a, b with
  | S754_zero s, S754_zero t => Bool.eqb s t
  | S754_infinity s, S754_infinity t => Bool.eqb s t
  | S754_nan, S754_nan => true
  | S754_finite s m e, S754_finite t n d =>
      Bool.eqb s t && Pos.eqb m n && Z.eqb e d
  | _, _ => false
  end.

Fixpoint value_eqb (a b : value) {struct a} : bool :=
  match a, b with
  | JUndefined, JUndefined => true
  | JNull, JNull => true
  | JBool x, JBool y => Bool.eqb x y
  | JNum x, JNum y => float_eqb x y
  | JStr x, JStr y => String.eqb x y
  | JArr xs, JArr ys =>
      (fix elems_eqb (xs ys : list value) {struct xs} : bool :=
         match xs, ys with
         | [], [] => true
         | x :: xs', y :: ys' => value_eqb x y && elems_eqb xs' ys'
         | _, _ => false
         end) xs ys
  | JObj ps, JObj qs =>
      (fix props_eqb (ps qs : list (string * value)) {struct ps} : bool :=
         match ps, qs with
         | [], [] => true
         | (k, x) :: ps', (l, y) :: qs' =>
             String.eqb k l && value_eqb x y && props_eqb ps' qs'
         | _, _ => false
         end) ps qs
  | _, _ => false
  end.

(** Induction over values, through the lists of an array and an object. *)
Section ValueInduction.
Variable P : value -> Prop.
Hypothesis case_undefined : P JUndefined.
Hypothesis case_null : P JNull.
Hypothesis case_bool : forall b, P (JBool b).
Hypothesis case_num : forall f, P (JNum f).
Hypothesis case_str : forall s, P (JStr s).
Hypothesis case_arr : forall elems, Forall P elems -> P (JArr elems).
Hypothesis case_obj :
  forall props, Forall (fun kv => P (snd kv)) props -> P (JObj props).

Fixpoint value_ind (v : value) : P v :=
  match v with
  | JUndefined => case_undefined
  | JNull => case_null
  | JBool b => case_bool b
  | JNum f => case_num f
  | JStr s => case_str s
  | JArr elems =>
      case_arr elems
        ((fix all (l : list value) : Forall P l :=
            match l with
            | [] => Forall_nil P
            | x :: l' => Forall_cons x (value_ind x) (all l')
            end) elems)
  | JObj props =>
      case_obj props
        ((fix all (l : list (string * value))
            : Forall (fun kv => P (snd kv)) l :=
            match l with
            | [] => Forall_nil _
            | kv :: l' => Forall_cons kv (value_ind (snd kv)) (all l')
            end) props)
  end.
End ValueInduction.

End Js.

Import Js.

(** ** The relational store behind the pool *)

Module Store.

(** Rows hold, column by column, the parameter values the handler bound to
    the statement; generated columns ([id], [created_at]) are integers
    chosen by the store.  What the driver and the column types do to a
    bound value ([undefined] sent as [NULL], a number stored in a text
    column) is not modelled: two values are the same key when they are the
    same value. *)
Record user_row : Type := mkUser
  { u_phone : value; u_name : value; u_city : value }.

Record order_row : Type := mkOrder
  { o_id : Z;
    o_user_phone : value;
    o_total_amount : value;
    o_status : value;
    o_payment_method : value;
    o_shipping_address : value;
    o_created_at : Z }.

(** One element of [orderItemsData]:
    [[orderId, item.name, item.price, 1]]. *)
Record item_row : Type := mkItem
  { i_order_id : Z; i_product_name : value; i_price : value; i_quantity : Z }.

Record product_row : Type := mkProduct
  { p_id : Z; p_columns : Js.object }.

Record tables : Type := mkTables
  { users : list user_row;
    orders : list order_row;
    order_items : list item_row;
    products : list product_row }.

(** The statements of [src/index.js], with their bound parameters. *)
Inductive statement : Type :=
| userSql (phone name city : value)
| orderSql (user_phone total_amount status payment_method shipping_address : value)
| itemsSql (rows : list item_row)
| productsSql
| profileSql (phone : value)
| historySql (phone : value).

(** The kind of each statement and the table it names, as its SQL text
    has them: [INSERT INTO users ... ON DUPLICATE KEY UPDATE],
    [INSERT INTO orders], [INSERT INTO order_items], and three
    [SELECT * FROM]. *)
Inductive verb : Type := Insert | InsertOrUpdate | Select.

Definition verb_of (s : statement) : verb :=
  match s with
  | userSql _ _ _ => InsertOrUpdate
  | orderSql _ _ _ _ _ | itemsSql _ => Insert
  | productsSql | profileSql _ | historySql _ => Select
  end.

Definition table_of (s : statement) : string :=
  match s with
  | userSql _ _ _ | profileSql _ => "users"
  | orderSql _ _ _ _ _ | historySql _ => "orders"
  | itemsSql _ => "order_items"
  | productsSql => "products"
  end.

(** What the store generates for an inserted order:
    [result.insertId] and the row's [created_at] default. *)
Record generated : Type := mkGenerated { insertId : Z; created_at : Z }.

(** Modelled from the spec: the schema is not part of the source; the spec
    gives [users(phone PRIMARY KEY, name, city)], which is what makes
    [ON DUPLICATE KEY UPDATE name = VALUES(name), city = VALUES(city)]
    overwrite the row holding the same phone and insert a row otherwise. *)
Fixpoint upsert (r : user_row) (t : list user_row) : list user_row :=
  match t with
  | [] => [r]
  | x :: t' =>
      if value_eqb (u_phone x) (u_phone r)
      then mkUser (u_phone x) (u_name r) (u_city r) :: t'
      else x :: upsert r t'
  end.

(** Effect of a statement that succeeds.  [INSERT] appends; the reads
    change nothing. *)
Definition apply (s : statement) (g : generated) (t : tables) : tables :=
  match s with
  | userSql phone name city =>
      mkTables (upsert (mkUser phone name city) (users t))
               (orders t) (order_items t) (products t)
  | orderSql user_phone total_amount status payment_method shipping_address =>
      mkTables (users t)
               (orders t ++
                  [mkOrder (insertId g) user_phone total_amount status
                           payment_method shipping_address (created_at g)])
               (order_items t) (products t)
  | itemsSql rows =>
      mkTables (users t) (orders t) (order_items t ++ rows) (products t)
  | productsSql | profileSql _ | historySql _ => t
  end.

(** [ORDER BY key DESC]. *)
Fixpoint insert_desc {A : Type} (key : A -> Z) (x : A) (l : list A) : list A :=
  match l with
  | [] => [x]
  | y :: l' => if key y <? key x then x :: l else y :: insert_desc key x l'
  end.

Definition order_by_desc {A : Type} (key : A -> Z) (l : list A) : list A :=
  fold_right (insert_desc key) [] l.

(** ['SELECT * FROM products ORDER BY id DESC'] *)
Definition select_products (t : tables) : list product_row :=
  order_by_desc p_id (products t).

(** ['SELECT * FROM users WHERE phone = ?'] *)
Definition select_profile (phone : value) (t : tables) : list user_row :=
  filter (fun r => value_eqb (u_phone r) phone) (users t).

(** ['SELECT * FROM orders WHERE user_phone = ? ORDER BY created_at DESC'] *)
Definition select_history (phone : value) (t : tables) : list order_row :=
  order_by_desc o_created_at
    (filter (fun r => value_eqb (o_user_phone r) phone) (orders t)).

End Store.
Import Store.

(** ** How the driver formats bound values *)

Module SqlString.

Definition has_own (props : Js.object) (key : string) : bool :=
  existsb (fun kv => String.eqb (fst kv) key) props.

(** The driver is not part of the source: [connection.query] formats each
    bound value with sqlstring's [SqlString.escape(val, stringifyObjects)]
    before anything is sent.  [escape] tells whether that call returns
    ([true]) or throws ([false]).  [undefined], [null], booleans, numbers
    and strings always format.  An array formats through [arrayToList],
    which escapes every element with [stringifyObjects] set.  A plain
    object formats through [objectToValues] when [stringifyObjects] is not
    set, escaping every property value with it set; when it is set the
    object is turned into text by [val.toString()], which throws when the
    parsed object has an own property named [toString] (never a
    function). *)
Fixpoint escape (stringifyObjects : bool) (val : value) {struct val} : bool :=
  match val with
  | JArr elems =>
      (fix arrayToList (array : list value) : bool :=
         match array with
         | [] => true
         | x :: rest => escape true x && arrayToList rest
         end) elems
  | JObj props =>
      if stringifyObjects then negb (has_own props "toString")
      else
        (fix objectToValues (object : list (string * value)) : bool :=
           match object with
           | [] => true
           | (_, x) :: rest => escape true x && objectToValues rest
           end) props
  | _ => true
  end.

(** One row of a bulk insert, [[orderId, name, price, 1]], is a nested
    array: its elements are escaped with [stringifyObjects] set. *)
Definition row_formats (r : item_row) : bool :=
  escape true (i_product_name r) && escape true (i_price r).

(** Whether the values bound to a statement all format: each value of
    the [params] array is escaped with [stringifyObjects] not set. *)
Definition formats (s : statement) : bool :=
  match s with
  | userSql phone name city =>
      escape false phone && escape false name && escape false city
  | orderSql user_phone total_amount status payment_method shipping_address =>
      escape false user_phone && escape false total_amount &&
      escape false status && escape false payment_method &&
      escape false shipping_address
  | itemsSql rows => forallb row_formats rows
  | productsSql => true
  | profileSql phone | historySql phone => escape false phone
  end.

Definition not_a_function : string :=
  "TypeError: val.toString is not a function".

End SqlString.
Import SqlString.

(** ** The pool, one leased connection, and the HTTP response *)

Module Http.

(** Bodies passed to [res.json]. *)
Inductive body : Type :=
| ErrorBody (error : string)
| MessageBody (message : string)
| OrderPlaced (message : string) (orderId : Z)
| ProductList (results : list product_row)
| Profile (user : user_row) (orders : list order_row).

(** What a handler does to the outside, in program order. *)
Inductive event : Type :=
| EvGetConnection
| EvBeginTransaction
| EvQuery (s : statement)
| EvCommit
| EvRollback
| EvRelease
| EvRespond (status : Z) (b : body).

(** [committed] is what every reader sees.  [txn] is the working copy of
    the transaction open on the connection this request holds, if any.
    [in_use] counts the connections leased from the pool. *)
Record world : Type := mkWorld
  { committed : tables; txn : option tables; in_use : nat }.

(** How a handler invocation ends: its callbacks ran to their end, or one
    of them threw.  Nothing in the source catches an exception. *)
Inductive completion : Type :=
| Returned
| Threw (message : string).

Definition M (A : Type) : Type := world -> A * world * list event.

Definition ret {A : Type} (a : A) : M A := fun w => (a, w, []).

Definition bind {A B : Type} (m : M A) (k : A -> M B) : M B :=
  fun w =>
    let '(a, w1, t1) := m w in
    let '(b, w2, t2) := k a w1 in
    (b, w2, t1 ++ t2).

Definition emit (e : event) : M unit := fun w => (tt, w, [e]).

Definition update (f : world -> world) : M unit := fun w => (tt, f w, []).

Definition read {A : Type} (f : world -> A) : M A := fun w => (f w, w, []).

End Http.
Import Http.

Declare Scope handler_scope.
Delimit Scope handler_scope with handler.
Notation "x <- m ;; k" := (bind m (fun x => k))
  (at level 61, m at next level, right associativity) : handler_scope.
Notation "m ;; k" := (bind m (fun _ => k))
  (at level 61, right associativity) : handler_scope.
Local Open Scope handler_scope.

Module Driver.

(** [db.getConnection(cb)]: [err] is [Some message] when no connection
    could be had. *)
Definition getConnection (err : option string) : M (option string) :=
  emit EvGetConnection ;;
  match err with
  | Some _ => ret err
  | None =>
      update (fun w => mkWorld (committed w) (txn w) (S (in_use w))) ;;
      ret err
  end.

(** [connection.beginTransaction(cb)] *)
Definition beginTransaction (err : option string) : M (option string) :=
  emit EvBeginTransaction ;;
  match err with
  | Some _ => ret err
  | None =>
      update (fun w => mkWorld (committed w) (Some (committed w)) (in_use w)) ;;
      ret err
  end.

(** [connection.query(sql, params, cb)].  The call first formats the
    bound values and throws, on the spot, when one does not format:
    nothing is sent then and [cb] is never called ([inl], with the text
    of the exception).  Otherwise the statement is sent and [cb] gets the
    store's answer ([inr]): a statement that fails changes nothing; one
    that succeeds acts on the open transaction, or directly on the
    committed tables when none is open (autocommit). *)
Definition query (reply : string + generated) (s : statement)
  : M (string + (string + generated)) :=
  if formats s then
    emit (EvQuery s) ;;
    match reply with
    | inl _ => ret (inr reply)
    | inr g =>
        update (fun w =>
                  match txn w with
                  | Some t =>
                      mkWorld (committed w) (Some (apply s g t)) (in_use w)
                  | None => mkWorld (apply s g (committed w)) None (in_use w)
                  end) ;;
        ret (inr reply)
    end
  else ret (inl not_a_function).

(** [connection.commit(cb)]: on success the working copy becomes the
    committed state; on failure nothing is published and the transaction
    stays open. *)
Definition commit (err : option string) : M (option string) :=
  emit EvCommit ;;
  match err with
  | Some _ => ret err
  | None =>
      update (fun w =>
                match txn w with
                | Some t => mkWorld t None (in_use w)
                | None => w
                end) ;;
      ret err
  end.

(** [connection.rollback(cb)]: the callback in the source takes no error
    argument; the working copy is discarded. *)
Definition rollback : M unit :=
  emit EvRollback ;;
  update (fun w => mkWorld (committed w) None (in_use w)).

(** [connection.release()]: the connection goes back to the pool as it
    is. *)
Definition release : M unit :=
  emit EvRelease ;;
  update (fun w => mkWorld (committed w) (txn w) (Nat.pred (in_use w))).

(** [db.query(sql, params, cb)] on the pool, for the reads: the rows come
    from the committed state.  The reads bind nothing or one string, which
    always formats. *)
Definition pool_query {R : Type} (err : option string) (s : statement)
    (rows : tables -> list R) : M (string + list R) :=
  emit (EvQuery s) ;;
  match err with
  | Some message => ret (inl message)
  | None => results <- read (fun w => rows (committed w)) ;; ret (inr results)
  end.

(** [res.status(code).json(body)]; [res.json(body)] is status 200. *)
Definition respond (status : Z) (b : body) : M completion :=
  emit (EvRespond status b) ;; ret Returned.

End Driver.
Import Driver.

(** ** The route handlers *)

Module Routes.

(** What the store answers to each call [POST /api/orders] makes, in the
    order the calls are made.  A call that is never reached has no
    effect. *)
Record order_replies : Type := mkOrderReplies
  { on_getConnection : option string;
    on_beginTransaction : option string;
    on_userSql : string + generated;
    on_orderSql : string + generated;
    on_itemsSql : string + generated;
    on_commit : option string }.

(** [items.map(item => [orderId, item.name, item.price, 1])] over the
    elements of an array, left to right: reading [.name] of a [null] (or
    [undefined]) element throws. *)
Fixpoint map_items (orderId : Z) (elems : list value) : string + list item_row :=
  match elems with
  | [] => inr []
  | item :: rest =>
      match item with
      | JNull =>
          inl "TypeError: Cannot read properties of null (reading 'name')"
      | JUndefined =>
          inl "TypeError: Cannot read properties of undefined (reading 'name')"
      | _ =>
          match map_items orderId rest with
          | inl thrown => inl thrown
          | inr rows =>
              inr (mkItem orderId (get item "name") (get item "price") 1 :: rows)
          end
      end
  end.

(** [const orderItemsData = items.map(...)]; only an array has [map]. *)
Definition orderItemsData (orderId : Z) (items : value) : string + list item_row :=
  match items with
  | JArr elems => map_items orderId elems
  | _ => inl "TypeError: items.map is not a function"
  end.

(** [!customer || !items || items.length === 0] *)
Definition missing_details (customer items : value) : bool :=
  negb (truthy customer) || negb (truthy items) || length_is_zero items.

(** [app.post('/api/orders', ...)] on [req.body], the object parsed by
    [express.json()] (an array body has none of the four properties and
    behaves as the empty object).  [console.log] is left out.  An
    exception thrown by [connection.query] or by [items.map] leaves the
    callback it is raised in: the handler ends there. *)
Definition post_api_orders (e : order_replies) (req_body : Js.object)
  : M completion :=
  let customer := own req_body "customer" in
  let items := own req_body "items" in
  let total := own req_body "total" in
  let paymentMethod := own req_body "paymentMethod" in
  if missing_details customer items then
    respond 400 (MessageBody "Missing order details")
  else
    err <- getConnection (on_getConnection e) ;;
    match err with
    | Some message => respond 500 (ErrorBody message)
    | None =>
    err <- beginTransaction (on_beginTransaction e) ;;
    match err with
    | Some message => release ;; respond 500 (ErrorBody message)
    | None =>
    r <- query (on_userSql e)
           (userSql (get customer "phone") (get customer "name")
                    (get customer "address")) ;;
    match r with
    | inl thrown => ret (Threw thrown)
    | inr (inl message) =>
        rollback ;; release ;; respond 500 (ErrorBody message)
    | inr (inr _) =>
    r <- query (on_orderSql e)
           (orderSql (get customer "phone") total (JStr "Processing")
                     paymentMethod (get customer "address")) ;;
    match r with
    | inl thrown => ret (Threw thrown)
    | inr (inl message) =>
        rollback ;; release ;; respond 500 (ErrorBody message)
    | inr (inr result) =>
    let orderId := insertId result in
    match orderItemsData orderId items with
    | inl thrown => ret (Threw thrown)
    | inr rows =>
    r <- query (on_itemsSql e) (itemsSql rows) ;;
    match r with
    | inl thrown => ret (Threw thrown)
    | inr (inl message) =>
        rollback ;; release ;; respond 500 (ErrorBody message)
    | inr (inr _) =>
    err <- commit (on_commit e) ;;
    match err with
    | Some message => rollback ;; release ;; respond 500 (ErrorBody message)
    | None =>
        release ;;
        respond 200 (OrderPlaced "Order placed successfully!" orderId)
    end end end end end end end.

(** [app.get('/api/products', ...)] *)
Definition get_api_products (err : option string) : M completion :=
  r <- pool_query err productsSql select_products ;;
  match r with
  | inl message => respond 500 (ErrorBody message)
  | inr results => respond 200 (ProductList results)
  end.

Record profile_replies : Type := mkProfileReplies
  { on_profileSql : option string; on_historySql : option string }.

(** [app.get('/api/user/:phone', ...)] on [req.params.phone]. *)
Definition get_api_user (e : profile_replies) (phone : string) : M completion :=
  r <- pool_query (on_profileSql e) (profileSql (JStr phone))
         (select_profile (JStr phone)) ;;
  match r with
  | inl message => respond 500 (ErrorBody message)
  | inr userResult =>
      match userResult with
      | [] => respond 404 (MessageBody "User not found")
      | user :: _ =>
          r <- pool_query (on_historySql e) (historySql (JStr phone))
                 (select_history (JStr phone)) ;;
          match r with
          | inl message => respond 500 (ErrorBody message)
          | inr orderResult => respond 200 (Profile user orderResult)
          end
      end
  end.

End Routes.
Import Routes.

(** ** What the theorems observe of a run *)

Module Observe.

(** The responses sent, in order. *)
Fixpoint responses (tr : list event) : list (Z * body) :=
  match tr with
  | [] => []
  | EvRespond status b :: rest => (status, b) :: responses rest
  | _ :: rest => responses rest
  end.

(** The statements sent to the store, in order. *)
Fixpoint statements (tr : list event) : list statement :=
  match tr with
  | [] => []
  | EvQuery s :: rest => s :: statements rest
  | _ :: rest => statements rest
  end.

(** The calls that end the use of a connection, in order. *)
Fixpoint closing (tr : list event) : list event :=
  match tr with
  | [] => []
  | EvRollback :: rest => EvRollback :: closing rest
  | EvRelease :: rest => EvRelease :: closing rest
  | _ :: rest => closing rest
  end.

(** The bulk writes to [order_items], in order. *)
Fixpoint bulk_writes (tr : list event) : list (list item_row) :=
  match tr with
  | [] => []
  | EvQuery (itemsSql rows) :: rest => rows :: bulk_writes rest
  | _ :: rest => bulk_writes rest
  end.

(** The steps of placing an order at which the store can fail. *)
Inductive step : Type :=
| Acquire | Begin | Upsert | InsertOrder | InsertItems | Commit.

(** The first call the store fails, with the message of its error. *)
Definition first_failure (e : order_replies) : option (step * string) :=
  match on_getConnection e with Some m => Some (Acquire, m) | None =>
  match on_beginTransaction e with Some m => Some (Begin, m) | None =>
  match on_userSql e with inl m => Some (Upsert, m) | inr _ =>
  match on_orderSql e with inl m => Some (InsertOrder, m) | inr _ =>
  match on_itemsSql e with inl m => Some (InsertItems, m) | inr _ =>
  match on_commit e with Some m => Some (Commit, m) | None => None
  end end end end end end.

(** An item list the handler can turn into rows: an array none of whose
    elements is [null] or [undefined]. *)
Definition rows_computable (items : value) : bool :=
  match items with
  | JArr elems => forallb (fun item => negb (nullish item)) elems
  | _ => false
  end.

(** Whether the values the request binds to the customer upsert and to
    the order insert format. *)
Definition upsert_binds (req_body : Js.object) : bool :=
  formats (userSql (get (own req_body "customer") "phone")
                   (get (own req_body "customer") "name")
                   (get (own req_body "customer") "address")).

Definition insert_binds (req_body : Js.object) : bool :=
  formats (orderSql (get (own req_body "customer") "phone")
                    (own req_body "total") (JStr "Processing")
                    (own req_body "paymentMethod")
                    (get (own req_body "customer") "address")).

(** Whether the name and the price of every item format as elements of a
    row of the bulk insert. *)
Definition rows_bind (items : value) : bool :=
  match items with
  | JArr elems =>
      forallb (fun item => escape true (get item "name") &&
                           escape true (get item "price")) elems
  | _ => true
  end.

(** The request passes validation and fails at step [s] with [message]:
    the store fails that call first, and the call is reached, that is,
    sent to the store: the values bound to it and to the statements
    before it format, and the items insert and the commit come after
    [orderItemsData] is computed. *)
Definition fails_at (e : order_replies) (req_body : Js.object)
    (s : step) (message : string) : Prop :=
  missing_details (own req_body "customer") (own req_body "items") = false /\
  first_failure e = Some (s, message) /\
  match s with
  | Acquire | Begin => True
  | Upsert => upsert_binds req_body = true
  | InsertOrder =>
      upsert_binds req_body = true /\ insert_binds req_body = true
  | InsertItems | Commit =>
      upsert_binds req_body = true /\ insert_binds req_body = true /\
      rows_computable (own req_body "items") = true /\
      rows_bind (own req_body "items") = true
  end.

(** The store never fails. *)
Definition all_fine (e : order_replies) : Prop := first_failure e = None.

(** The row [items.map] builds for one item. *)
Definition row_of (orderId : Z) (item : value) : item_row :=
  mkItem orderId (get item "name") (get item "price") 1.

(** [phone] is the primary key of [users]. *)
Definition primary_key (t : tables) : Prop := NoDup (map u_phone (users t)).

(** [l] is in descending order of [key]. *)
Definition descending {A : Type} (key : A -> Z) (l : list A) : Prop :=
  StronglySorted (fun a b => key b <= key a) l.

End Observe.
Import Observe.

(** ** The runs of [POST /api/orders], path by path *)

Module Runs.

Section OneRequest.
Variable e : order_replies.
Variable req_body : Js.object.
Variable w : world.

Let customer := own req_body "customer".
Let items := own req_body "items".

Definition upsert_of : statement :=
  userSql (get customer "phone") (get customer "name") (get customer "address").

Definition insert_of : statement :=
  orderSql (get customer "phone") (own req_body "total") (JStr "Processing")
           (own req_body "paymentMethod") (get customer "address").

(** The events up to and including the order insert. *)
Definition opening : list event :=
  [EvGetConnection; EvBeginTransaction; EvQuery upsert_of; EvQuery insert_of].

Definition failed (message : string) : list event :=
  [EvRollback; EvRelease; EvRespond 500 (ErrorBody message)].

(** One constructor per path through the nested callbacks: the outcome,
    the world left behind and the events, given what the store answered
    and whether the values bound to each statement format. *)
Inductive run : completion * world * list event -> Prop :=
| Rejected :
    missing_details customer items = true ->
    run (Returned, w, [EvRespond 400 (MessageBody "Missing order details")])
| NoConnection message :
    missing_details customer items = false ->
    on_getConnection e = Some message ->
    run (Returned, w, [EvGetConnection; EvRespond 500 (ErrorBody message)])
| NoTransaction message :
    missing_details customer items = false ->
    on_getConnection e = None ->
    on_beginTransaction e = Some message ->
    run (Returned, mkWorld (committed w) (txn w) (in_use w),
         [EvGetConnection; EvBeginTransaction; EvRelease;
          EvRespond 500 (ErrorBody message)])
| UpsertFailed message :
    missing_details customer items = false ->
    on_getConnection e = None ->
    on_beginTransaction e = None ->
    upsert_binds req_body = true ->
    on_userSql e = inl message ->
    run (Returned, mkWorld (committed w) None (in_use w),
         [EvGetConnection; EvBeginTransaction; EvQuery upsert_of]
           ++ failed message)
| InsertFailed u message :
    missing_details customer items = false ->
    on_getConnection e = None ->
    on_beginTransaction e = None ->
    upsert_binds req_body = true ->
    on_userSql e = inr u ->
    insert_binds req_body = true ->
    on_orderSql e = inl message ->
    run (Returned, mkWorld (committed w) None (in_use w),
         opening ++ failed message)
| Uncaught u g thrown :
    missing_details customer items = false ->
    on_getConnection e = None ->
    on_beginTransaction e = None ->
    upsert_binds req_body = true ->
    on_userSql e = inr u ->
    insert_binds req_body = true ->
    on_orderSql e = inr g ->
    orderItemsData (insertId g) items = inl thrown ->
    run (Threw thrown,
         mkWorld (committed w)
                 (Some (apply insert_of g (apply upsert_of u (committed w))))
                 (S (in_use w)),
         opening)
| ItemsFailed u g rows message :
    missing_details customer items = false ->
    on_getConnection e = None ->
    on_beginTransaction e = None ->
    upsert_binds req_body = true ->
    on_userSql e = inr u ->
    insert_binds req_body = true ->
    on_orderSql e = inr g ->
    orderItemsData (insertId g) items = inr rows ->
    formats (itemsSql rows) = true ->
    on_itemsSql e = inl message ->
    run (Returned, mkWorld (committed w) None (in_use w),
         opening ++ EvQuery (itemsSql rows) :: failed message)
| CommitFailed u g rows i message :
    missing_details customer items = false ->
    on_getConnection e = None ->
    on_beginTransaction e = None ->
    upsert_binds req_body = true ->
    on_userSql e = inr u ->
    insert_binds req_body = true ->
    on_orderSql e = inr g ->
    orderItemsData (insertId g) items = inr rows ->
    formats (itemsSql rows) = true ->
    on_itemsSql e = inr i ->
    on_commit e = Some message ->
    run (Returned, mkWorld (committed w) None (in_use w),
         opening ++ EvQuery (itemsSql rows) :: EvCommit :: failed message)
| Placed u g rows i :
    missing_details customer items = false ->
    on_getConnection e = None ->
    on_beginTransaction e = None ->
    upsert_binds req_body = true ->
    on_userSql e = inr u ->
    insert_binds req_body = true ->
    on_orderSql e = inr g ->
    orderItemsData (insertId g) items = inr rows ->
    formats (itemsSql rows) = true ->
    on_itemsSql e = inr i ->
    on_commit e = None ->
    run (Returned,
         mkWorld (apply (itemsSql rows) i
                    (apply insert_of g (apply upsert_of u (committed w))))
                 None (in_use w),
         opening ++
           [EvQuery (itemsSql rows); EvCommit; EvRelease;
            EvRespond 200
              (OrderPlaced "Order placed successfully!" (insertId g))])
| UpsertThrows :
    missing_details customer items = false ->
    on_getConnection e = None ->
    on_beginTransaction e = None ->
    upsert_binds req_body = false ->
    run (Threw not_a_function,
         mkWorld (committed w) (Some (committed w)) (S (in_use w)),
         [EvGetConnection; EvBeginTransaction])
| InsertThrows u :
    missing_details customer items = false ->
    on_getConnection e = None ->
    on_beginTransaction e = None ->
    upsert_binds req_body = true ->
    on_userSql e = inr u ->
    insert_binds req_body = false ->
    run (Threw not_a_function,
         mkWorld (committed w)
                 (Some (apply upsert_of u (committed w)))
                 (S (in_use w)),
         [EvGetConnection; EvBeginTransaction; EvQuery upsert_of])
| ItemsThrow u g rows :
    missing_details customer items = false ->
    on_getConnection e = None ->
    on_beginTransaction e = None ->
    upsert_binds req_body = true ->
    on_userSql e = inr u ->
    insert_binds req_body = true ->
    on_orderSql e = inr g ->
    orderItemsData (insertId g) items = inr rows ->
    formats (itemsSql rows) = false ->
    run (Threw not_a_function,
         mkWorld (committed w)
                 (Some (apply insert_of g (apply upsert_of u (committed w))))
                 (S (in_use w)),
         opening).
End OneRequest.

End Runs.
Import Runs.

(** ** Concrete requests and stores *)

Module Sample.

(** The double nearest to [9.99]. *)
Definition nine_99 : value := JNum (S754_finite false 5623870034678907 (-49)).

(** [{customer:{phone:"555",name:"A",address:"X"},
      items:[{name:"Widget",price:9.99}], total:9.99, paymentMethod:"COD"}] *)
Definition widget_order : Js.object :=
  [("customer", JObj [("phone", JStr "555"); ("name", JStr "A");
                      ("address", JStr "X")]);
   ("items", JArr [JObj [("name", JStr "Widget"); ("price", nine_99)]]);
   ("total", nine_99);
   ("paymentMethod", JStr "COD")].

(** The same customer, moved and renamed, buying two things. *)
Definition second_order : Js.object :=
  [("customer", JObj [("phone", JStr "555"); ("name", JStr "B");
                      ("address", JStr "Y")]);
   ("items", JArr [JObj [("name", JStr "Widget"); ("price", nine_99)];
                   JObj [("name", JStr "Polish"); ("price", nine_99)]]);
   ("total", nine_99);
   ("paymentMethod", JStr "Card")].

(** [{customer:{phone:"555",name:"A",address:"X"}, items:[null],
      total:9.99, paymentMethod:"COD"}] *)
Definition null_item_order : Js.object :=
  [("customer", JObj [("phone", JStr "555"); ("name", JStr "A");
                      ("address", JStr "X")]);
   ("items", JArr [JNull]);
   ("total", nine_99);
   ("paymentMethod", JStr "COD")].

(** [{customer:{phone:"555",name:[{"toString":1}],address:"X"},
      items:[{name:"Widget",price:9.99}], total:9.99, paymentMethod:"COD"}] *)
Definition unformattable_order : Js.object :=
  [("customer", JObj [("phone", JStr "555");
                      ("name", JArr [JObj [("toString", JNum (S754_finite false 1 0))]]);
                      ("address", JStr "X")]);
   ("items", JArr [JObj [("name", JStr "Widget"); ("price", nine_99)]]);
   ("total", nine_99);
   ("paymentMethod", JStr "COD")].

(** [{customer:{}, items:[{}]}]: nothing but the two validated fields. *)
Definition bare_order : Js.object :=
  [("customer", JObj []); ("items", JArr [JObj []])].

(** [{customer:{phone:"555"}, items:[]}] *)
Definition empty_order : Js.object :=
  [("customer", JObj [("phone", JStr "555")]); ("items", JArr [])].

Definition no_result : generated := mkGenerated 0 0.

(** A store that answers every call, numbering the order [id] at time
    [now]. *)
Definition store_fine (id now : Z) : order_replies :=
  mkOrderReplies None None (inr no_result) (inr (mkGenerated id now))
                 (inr no_result) None.

(** A store on which [beginTransaction] fails. *)
Definition begin_fails : order_replies :=
  mkOrderReplies None (Some "Connection lost") (inr no_result)
                 (inr (mkGenerated 7 100)) (inr no_result) None.

(** A store on which the bulk insert of the items fails. *)
Definition items_fail : order_replies :=
  mkOrderReplies None None (inr no_result) (inr (mkGenerated 7 100))
                 (inl "Data too long for column 'product_name'") None.

Definition catalogue : list product_row :=
  [mkProduct 1 [("name", JStr "Widget")];
   mkProduct 3 [("name", JStr "Polish")];
   mkProduct 2 [("name", JStr "Wax")]].

(** Nothing stored but the catalogue, no connection leased. *)
Definition idle : world := mkWorld (mkTables [] [] [] catalogue) None 0.

(** One customer with two orders, the older one listed last. *)
Definition busy : world :=
  mkWorld
    (mkTables
       [mkUser (JStr "555") (JStr "A") (JStr "X")]
       [mkOrder 7 (JStr "555") nine_99 (JStr "Processing") (JStr "COD")
                (JStr "X") 100;
        mkOrder 8 (JStr "777") nine_99 (JStr "Processing") (JStr "COD")
                (JStr "Z") 150;
        mkOrder 9 (JStr "555") nine_99 (JStr "Processing") (JStr "Card")
                (JStr "Y") 200]
       [] catalogue)
    None 0.

Definition reads_fine : profile_replies := mkProfileReplies None None.

(** [widget_order] placed on [idle], then [second_order] placed on what
    the first run left. *)
Definition first_run : completion * world * list event :=
  Eval vm_compute in post_api_orders (store_fine 7 100) widget_order idle.

Definition second_run : completion * world * list event :=
  Eval vm_compute in
    post_api_orders (store_fine 8 200) second_order (snd (fst first_run)).

End Sample.

(** ** Start-up, configuration and request sequences *)

Module Service.

(** A line written to the console: [console.error(...)] or
    [console.log(...)] with its arguments. *)
Inductive console : Type :=
| ConsoleError (args : list value)
| ConsoleLog (args : list value).

(** The error [db.getConnection] hands to its callback: [err.code] may be
    missing, [err.message] is the text. *)
Record connect_error : Type := mkConnectError
  { err_code : value; err_message : string }.

(** [db.getConnection((err, connection) => {...})] at start-up. *)
Definition startup_check (err : option connect_error) : M (list console) :=
  _ <- getConnection (option_map err_message err) ;;
  match err with
  | Some failure =>
      ret [ConsoleError [JStr "❌ Database Connection Failed:"; err_code failure];
           ConsoleError [JStr "Error Message:"; JStr (err_message failure)]]
  | None =>
      release ;;
      ret [ConsoleLog [JStr "✅ Connected to MySQL Database Successfully!"]]
  end.

(** [process.env.NAME]: a string when the variable is set, else
    [undefined]. *)
Definition env_value (variable : option string) : value :=
  match variable with
  | Some text => JStr text
  | None => JUndefined
  end.

(** [a || b] *)
Definition or_else (a b : value) : value := if truthy a then a else b.

Definition number_4000 : value := JNum (S754_finite false 8796093022208000 (-41)).
Definition number_3000 : value := JNum (S754_finite false 6597069766656000 (-41)).

(** [port: process.env.DB_PORT || 4000] *)
Definition db_port (DB_PORT : option string) : value :=
  or_else (env_value DB_PORT) number_4000.

(** [const PORT = process.env.PORT || 3000] *)
Definition PORT (env_PORT : option string) : value :=
  or_else (env_value env_PORT) number_3000.

(** Order requests handled one after the other by one process.  An
    exception no callback catches ends the process: the requests after it
    are not served. *)
Fixpoint serve (requests : list (order_replies * Js.object)) (w : world)
  : list completion * world :=
  match requests with
  | [] => ([], w)
  | (e, req_body) :: rest =>
      match post_api_orders e req_body w with
      | (Returned, w1, _) =>
          let '(done, w2) := serve rest w1 in (Returned :: done, w2)
      | (Threw thrown, w1, _) => ([Threw thrown], w1)
      end
  end.

(** Whether a run of requests ended on an uncaught exception. *)
Definition crashed (done : list completion) : bool :=
  match last done Returned with
  | Threw _ => true
  | Returned => false
  end.


(** The rows of a table that were not there before, the table having only
    grown at its end. *)
Definition added {A : Type} (before after : list A) : list A :=
  skipn (List.length before) after.

End Service.
Import Service.

(** Rewrites the store's answers, as recorded by a path of [run], into a
    hypothesis about [first_failure]. *)
Ltac answers_into Hf :=
  unfold first_failure in Hf;
  repeat match goal with
         | H : on_getConnection _ = _ |- _ => rewrite H in Hf; clear H
         | H : on_beginTransaction _ = _ |- _ => rewrite H in Hf; clear H
         | H : on_userSql _ = _ |- _ => rewrite H in Hf; clear H
         | H : on_orderSql _ = _ |- _ => rewrite H in Hf; clear H
         | H : on_itemsSql _ = _ |- _ => rewrite H in Hf; clear H
         | H : on_commit _ = _ |- _ => rewrite H in Hf; clear H
         end.

(** * Facts *)

(** ** Equality of values *)

Lemma float_eqb_eq (a b : spec_float) : float_eqb a b = true <-> a = b.
Proof.
  destruct a, b; simpl; try (split; [discriminate | congruence]);
    try tauto.
  - rewrite Bool.eqb_true_iff. split; congruence.
  - rewrite Bool.eqb_true_iff. split; congruence.
  - rewrite !andb_true_iff, Bool.eqb_true_iff, Pos.eqb_eq, Z.eqb_eq.
    split; [intros [[-> ->] ->]; reflexivity | intros H; inversion H; auto].
Qed.

Lemma value_eqb_eq (a b : value) : value_eqb a b = true <-> a = b.
Proof.
  revert b. induction a as [ | | x | x | x | xs IH | ps IH] using Js.value_ind;
    intros [ | | y | y | y | ys | qs]; simpl;
    try (split; [discriminate | congruence]); try tauto.
  - rewrite Bool.eqb_true_iff. split; congruence.
  - rewrite float_eqb_eq. split; congruence.
  - rewrite String.eqb_eq. split; congruence.
  - revert ys. induction IH as [ | x xs Hx _ IHxs]; intros [ | y ys];
      try (split; [discriminate | congruence]); try tauto.
    rewrite andb_true_iff, Hx, IHxs.
    split; [intros [-> H]; congruence | intros H; inversion H; auto].
  - revert qs. induction IH as [ | [k x] ps Hx _ IHps]; intros [ | [l y] qs];
      try (split; [discriminate | congruence]); try tauto.
    simpl in Hx.
    rewrite !andb_true_iff, String.eqb_eq, Hx, IHps.
    split; [intros [[-> ->] H]; congruence | intros H; inversion H; auto].
Qed.

Lemma value_eqb_refl (a : value) : value_eqb a a = true.
Proof. apply value_eqb_eq. reflexivity. Qed.

Lemma value_eqb_neq (a b : value) : value_eqb a b = false <-> a <> b.
Proof.
  rewrite <- value_eqb_eq. destruct (value_eqb a b); split; congruence.
Qed.

(** ** The store: ordering and the upsert *)

Section OrderBy.
Context {A : Type} (key : A -> Z).

Lemma insert_desc_perm (x : A) (l : list A) :
  Permutation (insert_desc key x l) (x :: l).
Proof.
  induction l as [ | y l IH]; simpl.
  - reflexivity.
  - destruct (key y <? key x); [reflexivity | ].
    rewrite IH. apply perm_swap.
Qed.

Lemma order_by_desc_perm (l : list A) : Permutation (order_by_desc key l) l.
Proof.
  induction l as [ | x l IH]; simpl.
  - reflexivity.
  - rewrite insert_desc_perm. now constructor.
Qed.

Lemma insert_desc_sorted (x : A) (l : list A) :
  descending key l -> descending key (insert_desc key x l).
Proof.
  unfold descending. induction 1 as [ | y l Hl IH Hy]; simpl.
  - repeat constructor.
  - destruct (Z.ltb_spec (key y) (key x)) as [Hlt | Hge].
    + constructor; [now constructor | ].
      constructor; [lia | ].
      eapply Forall_impl; [ | exact Hy]. simpl. intros; lia.
    + constructor; [exact IH | ].
      eapply Permutation_Forall.
      * symmetry. apply insert_desc_perm.
      * now constructor.
Qed.

Lemma order_by_desc_sorted (l : list A) : descending key (order_by_desc key l).
Proof.
  induction l as [ | x l IH]; simpl.
  - constructor.
  - now apply insert_desc_sorted.
Qed.
End OrderBy.

Lemma filter_absent_key (p : value) (t : list user_row) :
  ~ In p (map u_phone t) ->
  filter (fun r => value_eqb (u_phone r) p) t = [].
Proof.
  induction t as [ | x t IH]; simpl; intros Hnot; [reflexivity | ].
  destruct (value_eqb (u_phone x) p) eqn:E.
  - apply value_eqb_eq in E. tauto.
  - apply IH. tauto.
Qed.

Lemma upsert_keys (r : user_row) (t : list user_row) (k : value) :
  In k (map u_phone (upsert r t)) <-> k = u_phone r \/ In k (map u_phone t).
Proof.
  induction t as [ | x t IH]; simpl.
  - intuition congruence.
  - destruct (value_eqb (u_phone x) (u_phone r)) eqn:E; simpl.
    + apply value_eqb_eq in E. intuition congruence.
    + rewrite IH. tauto.
Qed.

Lemma upsert_keeps_key (r : user_row) (t : list user_row) :
  NoDup (map u_phone t) -> NoDup (map u_phone (upsert r t)).
Proof.
  induction t as [ | x t IH]; simpl; intros Hnd.
  - repeat constructor. simpl. tauto.
  - inversion Hnd as [ | ? ? Hx Ht]; subst.
    destruct (value_eqb (u_phone x) (u_phone r)) eqn:E; simpl.
    + now constructor.
    + constructor; [ | now apply IH].
      rewrite upsert_keys. apply value_eqb_neq in E.
      intros [H | H]; [congruence | contradiction].
Qed.

Lemma upsert_present (r : user_row) (t : list user_row) :
  In (u_phone r) (map u_phone t) ->
  List.length (upsert r t) = List.length t.
Proof.
  induction t as [ | x t IH]; simpl; [tauto | ].
  destruct (value_eqb (u_phone x) (u_phone r)) eqn:E; simpl.
  - reflexivity.
  - apply value_eqb_neq in E. intros [H | H]; [congruence | ].
    now rewrite IH.
Qed.

Lemma upsert_then_select (p n c : value) (t : list user_row) :
  NoDup (map u_phone t) ->
  filter (fun r => value_eqb (u_phone r) p) (upsert (mkUser p n c) t)
  = [mkUser p n c].
Proof.
  induction t as [ | x t IH]; simpl; intros Hnd.
  - now rewrite value_eqb_refl.
  - inversion Hnd as [ | ? ? Hx Ht]; subst.
    destruct (value_eqb (u_phone x) p) eqn:E; simpl.
    + rewrite E. apply value_eqb_eq in E. subst p.
      now rewrite filter_absent_key.
    + rewrite E. now apply IH.
Qed.

(** ** Every request follows one of the paths *)

Lemma post_api_orders_run (e : order_replies) (req_body : Js.object) (w : world) :
  run e req_body w (post_api_orders e req_body w).
Proof.
  unfold post_api_orders.
  destruct (missing_details _ _) eqn:Hmissing; [now apply Rejected | ].
  destruct (on_getConnection e) as [m | ] eqn:Hget;
    [now apply NoConnection | ].
  destruct (on_beginTransaction e) as [m | ] eqn:Hbegin;
    [now apply NoTransaction | ].
  destruct (upsert_binds req_body) eqn:Hupsert;
    unfold upsert_binds in Hupsert; unfold query at 1; rewrite Hupsert;
    [ | now apply UpsertThrows].
  destruct (on_userSql e) as [m | u] eqn:Huser;
    [now apply UpsertFailed | ].
  destruct (insert_binds req_body) eqn:Hinsert;
    unfold insert_binds in Hinsert; unfold query at 1; rewrite Hinsert;
    [ | now apply (InsertThrows e req_body w u)].
  destruct (on_orderSql e) as [m | g] eqn:Horder;
    [now apply (InsertFailed e req_body w u) | ].
  cbn.
  destruct (orderItemsData _ _) as [thrown | rows] eqn:Hrows;
    [now apply (Uncaught e req_body w u g) | ].
  destruct (formats (itemsSql rows)) eqn:Hformat;
    unfold query at 1; rewrite Hformat;
    [ | now apply (ItemsThrow e req_body w u g rows)].
  destruct (on_itemsSql e) as [m | i] eqn:Hitems;
    [now apply (ItemsFailed e req_body w u g) | ].
  destruct (on_commit e) as [m | ] eqn:Hcommit;
    [now apply (CommitFailed e req_body w u g rows i) | ].
  now apply (Placed e req_body w u g rows i).
Qed.

(** ** From items to rows *)

Lemma map_items_rows (orderId : Z) (elems : list value) :
  forallb (fun item => negb (nullish item)) elems = true ->
  map_items orderId elems = inr (map (row_of orderId) elems).
Proof.
  induction elems as [ | item elems IH]; simpl; [reflexivity | ].
  rewrite andb_true_iff. intros [Hitem Helems].
  rewrite (IH Helems). destruct item; try discriminate; reflexivity.
Qed.

Lemma map_items_inv (orderId : Z) (elems : list value) (rows : list item_row) :
  map_items orderId elems = inr rows ->
  rows = map (row_of orderId) elems.
Proof.
  revert rows. induction elems as [ | item elems IH]; simpl; intros rows H.
  - congruence.
  - destruct (map_items orderId elems) as [thrown | rows'];
      destruct item; try discriminate;
      injection H as <-; now rewrite (IH rows' eq_refl).
Qed.

Lemma orderItemsData_inv (orderId : Z) (items : value) (rows : list item_row) :
  orderItemsData orderId items = inr rows ->
  exists elems, items = JArr elems /\ rows = map (row_of orderId) elems.
Proof.
  destruct items; simpl; try discriminate.
  intros H. eexists. split; [reflexivity | now apply map_items_inv].
Qed.

Lemma rows_bind_formats (orderId : Z) (items : value) (rows : list item_row) :
  orderItemsData orderId items = inr rows ->
  formats (itemsSql rows) = rows_bind items.
Proof.
  intros H. destruct (orderItemsData_inv _ _ _ H) as (elems & -> & ->).
  simpl. clear H. induction elems as [ | item elems IH]; simpl;
    [reflexivity | now rewrite IH].
Qed.

Lemma orderItemsData_rows (orderId : Z) (items : value) :
  rows_computable items = true ->
  exists elems,
    items = JArr elems /\
    orderItemsData orderId items = inr (map (row_of orderId) elems).
Proof.
  destruct items; simpl; try discriminate.
  intros H. eexists. split; [reflexivity | now apply map_items_rows].
Qed.

(** * The claims *)

(** C1, as amended: a request that fails at the customer upsert, the order
    insert, the items insert or the commit, that is, whose call was sent
    and answered with an error by the store, has its transaction rolled
    back and then its connection released; one that fails at the transaction
    start has its connection released with no rollback; one that fails at
    connection acquisition has neither.  On each of them exactly one
    response is sent, a 500 carrying the message of the error, the
    committed tables are what they were, and the pool has as many
    connections in use as before. *)
Theorem failed_order_leaves_no_trace
    (e : order_replies) (req_body : Js.object) (w : world)
    (s : step) (message : string)
    (c : completion) (w' : world) (tr : list event) :
  fails_at e req_body s message ->
  post_api_orders e req_body w = (c, w', tr) ->
  c = Returned /\
  responses tr = [(500, ErrorBody message)] /\
  committed w' = committed w /\
  in_use w' = in_use w /\
  closing tr = match s with
               | Acquire => []
               | Begin => [EvRelease]
               | _ => [EvRollback; EvRelease]
               end /\
  match s with
  | Acquire | Begin => txn w' = txn w
  | _ => txn w' = None
  end.
Proof.
  intros (Hvalid & Hf & Hreached) Heq.
  pose proof (post_api_orders_run e req_body w) as R. rewrite Heq in R.
  inversion R; subst; clear R; try congruence; answers_into Hf;
    repeat match type of Hf with
           | context [match ?x with _ => _ end] => destruct x
           end;
    try discriminate;
    injection Hf as <- <-; cbv beta iota in Hreached;
    try (simpl; tauto).
  (* the paths on which a callback throws are not failures of a step *)
  all: try (destruct Hreached as (? & ? & Hrows & ?);
            destruct (orderItemsData_rows (insertId g) _ Hrows)
              as (? & _ & Hok); congruence).
  all: try (destruct Hreached as (? & ? & ? & Hbind);
            match goal with
            | H : orderItemsData _ _ = inr _ |- _ =>
                rewrite (rows_bind_formats _ _ _ H) in *
            end; congruence).
  all: try (destruct Hreached as (? & ? & ?); congruence).
  all: try (destruct Hreached as (? & ?); congruence).
  all: congruence.
Qed.

Lemma failed_order_leaves_no_trace_witness :
  fails_at Sample.items_fail Sample.widget_order InsertItems
           "Data too long for column 'product_name'" /\
  exists c w' tr,
    post_api_orders Sample.items_fail Sample.widget_order Sample.idle
    = (c, w', tr) /\
    c = Returned /\
    responses tr
    = [(500, ErrorBody "Data too long for column 'product_name'")] /\
    committed w' = committed Sample.idle /\
    closing tr = [EvRollback; EvRelease].
Proof.
  assert (fails_at Sample.items_fail Sample.widget_order InsertItems
                   "Data too long for column 'product_name'") as Hfails
    by (repeat split; reflexivity).
  split; [exact Hfails | ].
  do 3 eexists. split; [reflexivity | ].
  pose proof (failed_order_leaves_no_trace _ _ Sample.idle _ _ _ _ _
                Hfails eq_refl) as H.
  simpl in H. tauto.
Defined.

(** C1, as stated, fails when the transaction cannot be started: the
    request fails at that step, the connection is released, and no rollback
    is ever issued. *)
Lemma begin_failure_skips_rollback :
  fails_at Sample.begin_fails Sample.widget_order Begin "Connection lost" /\
  exists c w' tr,
    post_api_orders Sample.begin_fails Sample.widget_order Sample.idle
    = (c, w', tr) /\
    In EvRelease tr /\ ~ In EvRollback tr.
Proof.
  split; [repeat split; reflexivity | ].
  do 3 eexists. split; [reflexivity | ].
  simpl. split; [tauto | ].
  intros [H | [H | [H | [H | []]]]]; discriminate.
Qed.

(** C2 at a request whose item list holds [null]: validation passes, a
    connection is acquired and the first two writes go through, then
    [items.map] throws inside the callback of the order insert; the
    connection is never released, the transaction stays open and no
    response is sent. *)
Theorem null_item_keeps_connection :
  exists w' tr,
    post_api_orders (Sample.store_fine 7 100) Sample.null_item_order Sample.idle
    = (Threw "TypeError: Cannot read properties of null (reading 'name')",
       w', tr) /\
    In EvGetConnection tr /\
    ~ In EvRelease tr /\
    in_use w' = S (in_use Sample.idle) /\
    txn w' <> None /\
    responses tr = [].
Proof.
  do 2 eexists. split; [reflexivity | ].
  simpl. repeat split; try tauto; try discriminate.
  intros [H | [H | [H | [H | []]]]]; discriminate.
Qed.

(** What does hold of the pool: a handler whose callbacks all return
    leaves as many connections in use as it found, and ends the use of an
    acquired connection with [release]. *)
Lemma returned_order_restores_pool
    (e : order_replies) (req_body : Js.object) (w : world)
    (w' : world) (tr : list event) :
  post_api_orders e req_body w = (Returned, w', tr) ->
  in_use w' = in_use w /\
  (In EvGetConnection tr -> on_getConnection e = None ->
   exists before, closing tr = before ++ [EvRelease]).
Proof.
  intros Heq.
  pose proof (post_api_orders_run e req_body w) as R. rewrite Heq in R.
  inversion R; subst; clear R; simpl; (split; [reflexivity | ]);
    intros Hin Hget; try congruence.
  - destruct Hin as [H | []]; discriminate.
  - now exists [].
  - now exists [EvRollback].
  - now exists [EvRollback].
  - now exists [EvRollback].
  - now exists [EvRollback].
  - now exists [].
Qed.

(** And what does not: a handler one of whose callbacks throws had a
    bound value that does not format or an item list rejected by
    [items.map], and keeps its connection. *)
Lemma thrown_order_keeps_connection
    (e : order_replies) (req_body : Js.object) (w : world)
    (thrown : string) (w' : world) (tr : list event) :
  post_api_orders e req_body w = (Threw thrown, w', tr) ->
  (upsert_binds req_body = false \/ insert_binds req_body = false \/
   rows_computable (own req_body "items") = false \/
   rows_bind (own req_body "items") = false) /\
  in_use w' = S (in_use w) /\
  closing tr = [] /\
  responses tr = [] /\
  committed w' = committed w.
Proof.
  intros Heq.
  pose proof (post_api_orders_run e req_body w) as R. rewrite Heq in R.
  inversion R; subst; clear R; (split; [ | simpl; repeat split]).
  - right; right; left.
    destruct (rows_computable (own req_body "items")) eqn:Hrows;
      [ | reflexivity].
    destruct (orderItemsData_rows (insertId g) _ Hrows) as (? & _ & Hok).
    congruence.
  - now left.
  - right; now left.
  - right; right; right.
    match goal with
    | H : orderItemsData _ _ = inr _ |- _ =>
        rewrite <- (rows_bind_formats _ _ _ H)
    end.
    assumption.
Qed.

(** C3: a request whose [customer] is absent, whose [items] is absent or
    whose [items] is the empty list gets a 400 with the message
    "Missing order details"; the handler does nothing else: no connection
    is asked for, no statement is sent, the world is untouched. *)
Theorem missing_details_rejected
    (e : order_replies) (req_body : Js.object) (w : world) :
  own req_body "customer" = JUndefined \/
  own req_body "items" = JUndefined \/
  own req_body "items" = JArr [] ->
  post_api_orders e req_body w
  = (Returned, w, [EvRespond 400 (MessageBody "Missing order details")]).
Proof.
  intros H. unfold post_api_orders.
  replace (missing_details _ _) with true; [reflexivity | ].
  unfold missing_details.
  destruct H as [-> | [-> | ->]]; simpl;
    now rewrite ?orb_true_r.
Qed.

Lemma missing_details_rejected_witness :
  (own Sample.empty_order "customer" = JUndefined \/
   own Sample.empty_order "items" = JUndefined \/
   own Sample.empty_order "items" = JArr []) /\
  post_api_orders Sample.begin_fails Sample.empty_order Sample.idle
  = (Returned, Sample.idle,
     [EvRespond 400 (MessageBody "Missing order details")]).
Proof.
  assert (own Sample.empty_order "customer" = JUndefined \/
          own Sample.empty_order "items" = JUndefined \/
          own Sample.empty_order "items" = JArr []) as H
    by (right; right; reflexivity).
  split; [exact H | ].
  exact (missing_details_rejected Sample.begin_fails Sample.empty_order
           Sample.idle H).
Defined.

(** ** Orders that are placed *)

(** A run that answers 200 went through every step; what it committed. *)
Lemma placed_order_effect
    (e : order_replies) (req_body : Js.object) (w : world)
    (c : completion) (w' : world) (tr : list event) :
  post_api_orders e req_body w = (c, w', tr) ->
  map fst (responses tr) = [200] ->
  exists u g i elems,
    on_getConnection e = None /\ on_beginTransaction e = None /\
    on_userSql e = inr u /\ on_orderSql e = inr g /\
    on_itemsSql e = inr i /\ on_commit e = None /\
    own req_body "items" = JArr elems /\
    c = Returned /\
    w' = mkWorld
           (apply (itemsSql (map (row_of (insertId g)) elems)) i
              (apply (insert_of req_body) g
                 (apply (upsert_of req_body) u (committed w))))
           None (in_use w) /\
    tr = opening req_body ++
           [EvQuery (itemsSql (map (row_of (insertId g)) elems));
            EvCommit; EvRelease;
            EvRespond 200
              (OrderPlaced "Order placed successfully!" (insertId g))].
Proof.
  intros Heq Hok.
  pose proof (post_api_orders_run e req_body w) as R. rewrite Heq in R.
  inversion R; subst; clear R; try discriminate.
  match goal with
  | H : orderItemsData _ _ = inr _ |- _ =>
      destruct (orderItemsData_inv _ _ _ H) as (elems & Hitems & ->)
  end.
  exists u, g, i, elems. repeat split; assumption.
Qed.

(** Every run, placed or not, keeps [phone] a key of [users]. *)
Lemma post_api_orders_keeps_key
    (e : order_replies) (req_body : Js.object) (w : world)
    (c : completion) (w' : world) (tr : list event) :
  primary_key (committed w) ->
  post_api_orders e req_body w = (c, w', tr) ->
  primary_key (committed w').
Proof.
  intros Hkey Heq.
  pose proof (post_api_orders_run e req_body w) as R. rewrite Heq in R.
  inversion R; subst; clear R; try exact Hkey.
  unfold primary_key. simpl. now apply upsert_keeps_key.
Qed.

(** C4: after two orders placed one after the other from the same phone,
    the customers table holds exactly one row for that phone, and it
    carries the name and the address of the second order, as it carried
    those of the first order before; the second order adds no row to the
    table, and the phone is still a key of it. *)
Theorem same_phone_one_customer
    (e1 e2 : order_replies) (first second : Js.object)
    (w0 w1 w2 : world) (c1 c2 : completion) (tr1 tr2 : list event) :
  primary_key (committed w0) ->
  get (own first "customer") "phone" = get (own second "customer") "phone" ->
  post_api_orders e1 first w0 = (c1, w1, tr1) ->
  map fst (responses tr1) = [200] ->
  post_api_orders e2 second w1 = (c2, w2, tr2) ->
  map fst (responses tr2) = [200] ->
  select_profile (get (own first "customer") "phone") (committed w1)
  = [mkUser (get (own first "customer") "phone")
            (get (own first "customer") "name")
            (get (own first "customer") "address")] /\
  select_profile (get (own second "customer") "phone") (committed w2)
  = [mkUser (get (own second "customer") "phone")
            (get (own second "customer") "name")
            (get (own second "customer") "address")] /\
  List.length (users (committed w2)) = List.length (users (committed w1)) /\
  primary_key (committed w2).
Proof.
  intros Hkey Hphone Hrun1 Hok1 Hrun2 Hok2.
  pose proof (post_api_orders_keeps_key _ _ _ _ _ _ Hkey Hrun1) as Hkey1.
  pose proof (post_api_orders_keeps_key _ _ _ _ _ _ Hkey1 Hrun2) as Hkey2.
  destruct (placed_order_effect _ _ _ _ _ _ Hrun1 Hok1)
    as (u1 & g1 & i1 & elems1 & _ & _ & _ & _ & _ & _ & _ & _ & -> & _).
  destruct (placed_order_effect _ _ _ _ _ _ Hrun2 Hok2)
    as (u2 & g2 & i2 & elems2 & _ & _ & _ & _ & _ & _ & _ & _ & -> & _).
  unfold select_profile, primary_key in *. simpl in *.
  repeat split.
  - now apply upsert_then_select.
  - now apply upsert_then_select.
  - apply upsert_present. simpl. rewrite <- Hphone.
    apply upsert_keys. now left.
  - exact Hkey2.
Qed.

Lemma same_phone_one_customer_witness :
  primary_key (committed Sample.idle) /\
  select_profile (JStr "555") (committed (snd (fst Sample.second_run)))
  = [mkUser (JStr "555") (JStr "B") (JStr "Y")] /\
  List.length (users (committed (snd (fst Sample.second_run))))
  = List.length (users (committed (snd (fst Sample.first_run)))).
Proof.
  assert (primary_key (committed Sample.idle)) as Hkey by constructor.
  assert (post_api_orders (Sample.store_fine 7 100) Sample.widget_order
            Sample.idle
          = (Returned, snd (fst Sample.first_run), snd Sample.first_run))
    as Hrun1 by (vm_compute; reflexivity).
  assert (post_api_orders (Sample.store_fine 8 200) Sample.second_order
            (snd (fst Sample.first_run))
          = (Returned, snd (fst Sample.second_run), snd Sample.second_run))
    as Hrun2 by (vm_compute; reflexivity).
  pose proof (same_phone_one_customer
                (Sample.store_fine 7 100) (Sample.store_fine 8 200)
                Sample.widget_order Sample.second_order
                Sample.idle _ _ _ _ _ _
                Hkey eq_refl Hrun1 eq_refl Hrun2 eq_refl) as H.
  split; [exact Hkey | ].
  split; [exact (proj1 (proj2 H)) | exact (proj1 (proj2 (proj2 H)))].
Defined.

(** C5: when the request carries a customer and a non-empty list of [n]
    items none of which is [null], all with values the driver can format,
    and the store has accepted the customer upsert and the order insert,
    the handler sends exactly one bulk write to [order_items]; it has [n]
    rows, and row [i] is the generated order id, the name of item [i],
    the price of item [i] and the quantity 1. *)
Theorem items_go_in_one_bulk_write
    (e : order_replies) (req_body : Js.object) (w : world)
    (elems : list value) (u g : generated)
    (c : completion) (w' : world) (tr : list event) :
  truthy (own req_body "customer") = true ->
  upsert_binds req_body = true ->
  insert_binds req_body = true ->
  own req_body "items" = JArr elems ->
  elems <> [] ->
  Forall (fun item => nullish item = false /\
                      escape true (get item "name") = true /\
                      escape true (get item "price") = true) elems ->
  on_getConnection e = None ->
  on_beginTransaction e = None ->
  on_userSql e = inr u ->
  on_orderSql e = inr g ->
  post_api_orders e req_body w = (c, w', tr) ->
  bulk_writes tr = [map (row_of (insertId g)) elems] /\
  List.length (map (row_of (insertId g)) elems) = List.length elems /\
  forall i item,
    nth_error elems i = Some item ->
    nth_error (map (row_of (insertId g)) elems) i
    = Some (mkItem (insertId g) (get item "name") (get item "price") 1).
Proof.
  intros Hcustomer Hupsert Hinsert Hitems Hsome Hvalid
         Hget Hbegin Huser Horder Heq.
  rewrite Forall_forall in Hvalid.
  assert (rows_computable (own req_body "items") = true) as Hrows.
  { rewrite Hitems. simpl. apply forallb_forall. intros item Hin.
    now rewrite (proj1 (Hvalid item Hin)). }
  assert (rows_bind (own req_body "items") = true) as Hbind.
  { rewrite Hitems. simpl. apply forallb_forall. intros item Hin.
    destruct (Hvalid item Hin) as (_ & -> & ->). reflexivity. }
  destruct (orderItemsData_rows (insertId g) _ Hrows) as (elems' & Hsame & Hok).
  rewrite Hitems in Hsame. injection Hsame as <-.
  assert (missing_details (own req_body "customer") (own req_body "items")
          = false) as Hpresent.
  { unfold missing_details. rewrite Hcustomer, Hitems.
    destruct elems; [contradiction | reflexivity]. }
  split; [ | split].
  - pose proof (post_api_orders_run e req_body w) as R. rewrite Heq in R.
    inversion R; subst; clear R; try congruence;
      repeat match goal with
             | H : on_orderSql e = inr ?g' |- _ =>
                 assert (g' = g) as -> by congruence; clear H
             | H : orderItemsData _ _ = inr ?rows |- _ =>
                 assert (formats (itemsSql rows) = true)
                   by (rewrite (rows_bind_formats _ _ _ H); exact Hbind);
                 assert (rows = map (row_of (insertId g)) elems) as ->
                   by congruence; clear H
             end;
      try reflexivity.
    all: congruence.
  - apply length_map.
  - intros i item Hnth. now rewrite nth_error_map, Hnth.
Qed.

Lemma items_go_in_one_bulk_write_witness :
  bulk_writes
    (snd (post_api_orders (Sample.store_fine 8 200) Sample.second_order
            Sample.idle))
  = [[mkItem 8 (JStr "Widget") Sample.nine_99 1;
      mkItem 8 (JStr "Polish") Sample.nine_99 1]] /\
  List.length [mkItem 8 (JStr "Widget") Sample.nine_99 1;
               mkItem 8 (JStr "Polish") Sample.nine_99 1] = 2%nat.
Proof.
  pose proof (items_go_in_one_bulk_write
                (Sample.store_fine 8 200) Sample.second_order Sample.idle
                _ Sample.no_result (mkGenerated 8 200) _ _ _
                eq_refl eq_refl eq_refl eq_refl
                ltac:(discriminate)
                ltac:(repeat constructor)
                eq_refl eq_refl eq_refl eq_refl eq_refl) as H.
  split; [exact (proj1 H) | exact (proj1 (proj2 H))].
Defined.

(** C6: a request answered with 200 has added one row to [orders]: the
    generated id, the customer's phone, the request's total, the status
    "Processing", the request's payment method, and as shipping address
    the [address] of the customer payload, whatever the customers table
    holds; the one response is
    [{message: "Order placed successfully!", orderId}] with that id. *)
Theorem placed_order_row
    (e : order_replies) (req_body : Js.object) (w : world)
    (c : completion) (w' : world) (tr : list event) :
  post_api_orders e req_body w = (c, w', tr) ->
  map fst (responses tr) = [200] ->
  exists g,
    on_orderSql e = inr g /\
    responses tr
    = [(200, OrderPlaced "Order placed successfully!" (insertId g))] /\
    orders (committed w')
    = orders (committed w) ++
        [mkOrder (insertId g)
                 (get (own req_body "customer") "phone")
                 (own req_body "total")
                 (JStr "Processing")
                 (own req_body "paymentMethod")
                 (get (own req_body "customer") "address")
                 (created_at g)].
Proof.
  intros Heq Hok.
  destruct (placed_order_effect _ _ _ _ _ _ Heq Hok)
    as (u & g & i & elems & _ & _ & _ & Horder & _ & _ & _ & _ & -> & ->).
  exists g. split; [exact Horder | split; reflexivity].
Qed.

Lemma placed_order_row_witness :
  exists g,
    on_orderSql (Sample.store_fine 7 100) = inr g /\
    responses
      (snd (post_api_orders (Sample.store_fine 7 100) Sample.widget_order
              Sample.busy))
    = [(200, OrderPlaced "Order placed successfully!" (insertId g))] /\
    orders
      (committed
         (snd (fst (post_api_orders (Sample.store_fine 7 100)
                      Sample.widget_order Sample.busy))))
    = orders (committed Sample.busy) ++
        [mkOrder (insertId g) (JStr "555") Sample.nine_99 (JStr "Processing")
                 (JStr "COD") (JStr "X") (created_at g)].
Proof.
  exact (placed_order_row (Sample.store_fine 7 100) Sample.widget_order
           Sample.busy _ _ _ eq_refl eq_refl).
Defined.

(** C9: whatever the store answers and however the request ends, the
    [orders] and [order_items] tables readers see afterwards are the ones
    from before with rows added at the end, and every statement the
    handler sent that names one of the two tables is a plain [INSERT]. *)
Theorem orders_and_items_only_grow
    (e : order_replies) (req_body : Js.object) (w : world) :
  let after := committed (snd (fst (post_api_orders e req_body w))) in
  let sent := statements (snd (post_api_orders e req_body w)) in
  (exists added, orders after = orders (committed w) ++ added) /\
  (exists added, order_items after = order_items (committed w) ++ added) /\
  Forall (fun s =>
            table_of s = "orders" \/ table_of s = "order_items" ->
            verb_of s = Insert) sent.
Proof.
  pose proof (post_api_orders_run e req_body w) as R.
  destruct (post_api_orders e req_body w) as [[c w'] tr].
  inversion R; subst; clear R; simpl;
    (split; [ | split]);
    try (exists []; now rewrite app_nil_r);
    try (eexists; reflexivity);
    repeat constructor; simpl; intros [H | H]; discriminate.
Qed.

(** C10: a request whose [customer] is truthy and whose [items] is truthy
    with a length other than zero is never answered 400, whatever else it
    lacks: the handler asks the pool for a connection, and once it has one
    with a transaction open it sends the customer upsert with
    [customer.phone], [customer.name] and [customer.address] as they are,
    and after it the order insert with [total] and [paymentMethod] as they
    are, provided the driver can format the values bound to each; a field
    that is absent is bound as [undefined], which always formats. *)
Theorem validation_checks_presence_only
    (e : order_replies) (req_body : Js.object) (w : world)
    (c : completion) (w' : world) (tr : list event) :
  truthy (own req_body "customer") = true ->
  truthy (own req_body "items") = true ->
  length_is_zero (own req_body "items") = false ->
  post_api_orders e req_body w = (c, w', tr) ->
  ~ In 400 (map fst (responses tr)) /\
  hd_error tr = Some EvGetConnection /\
  (on_getConnection e = None ->
   on_beginTransaction e = None ->
   upsert_binds req_body = true ->
   exists rest,
     statements tr
     = userSql (get (own req_body "customer") "phone")
               (get (own req_body "customer") "name")
               (get (own req_body "customer") "address") :: rest /\
     forall u,
       on_userSql e = inr u ->
       insert_binds req_body = true ->
       exists rest',
         rest
         = orderSql (get (own req_body "customer") "phone")
                    (own req_body "total")
                    (JStr "Processing")
                    (own req_body "paymentMethod")
                    (get (own req_body "customer") "address") :: rest').
Proof.
  intros Hcustomer Hitems Hlength Heq.
  assert (missing_details (own req_body "customer") (own req_body "items")
          = false) as Hpresent
    by (unfold missing_details; now rewrite Hcustomer, Hitems, Hlength).
  pose proof (post_api_orders_run e req_body w) as R. rewrite Heq in R.
  inversion R; subst; clear R; try congruence; simpl;
    (split; [intros H; repeat destruct H as [H | H];
                       (discriminate || contradiction)
            | split; [reflexivity | ]]);
    intros Hget Hbegin Hupsert; try congruence;
    (eexists; split; [reflexivity | ]);
    intros u' Huser Hinsert; try congruence;
    eexists; reflexivity.
Qed.

Lemma validation_checks_presence_only_witness :
  ~ In 400
      (map fst
         (responses
            (snd (post_api_orders (Sample.store_fine 7 100) Sample.bare_order
                    Sample.idle)))) /\
  hd_error
    (snd (post_api_orders (Sample.store_fine 7 100) Sample.bare_order
            Sample.idle))
  = Some EvGetConnection /\
  exists rest',
    statements
      (snd (post_api_orders (Sample.store_fine 7 100) Sample.bare_order
              Sample.idle))
    = userSql JUndefined JUndefined JUndefined
        :: orderSql JUndefined JUndefined (JStr "Processing") JUndefined
                    JUndefined :: rest'.
Proof.
  pose proof (validation_checks_presence_only
                (Sample.store_fine 7 100) Sample.bare_order Sample.idle _ _ _
                eq_refl eq_refl eq_refl eq_refl) as (Hnot & Hfirst & Hsent).
  split; [exact Hnot | split; [exact Hfirst | ]].
  destruct (Hsent eq_refl eq_refl eq_refl) as (rest & Hupsert & Hinsert).
  destruct (Hinsert Sample.no_result eq_refl eq_refl) as (rest' & ->).
  exists rest'. exact Hupsert.
Defined.

(** C7: when the lookup of the customer succeeds and no row of [users]
    has the phone, the response is 404 [{message: "User not found"}] and
    no second query is made; when some row has it and the second query
    succeeds too, the response is 200 [{user, orders}], where [user] is a
    row of [users] with that phone and [orders] lists exactly the rows of
    [orders] with that phone, latest [created_at] first.  A failure of
    either query is answered 500 with its message. *)
Theorem profile_lookup
    (e : profile_replies) (phone : string) (w : world) :
  let sent1 := EvQuery (profileSql (JStr phone)) in
  let sent2 := EvQuery (historySql (JStr phone)) in
  (forall message,
     on_profileSql e = Some message ->
     get_api_user e phone w
     = (Returned, w, [sent1; EvRespond 500 (ErrorBody message)])) /\
  (on_profileSql e = None ->
   (forall r, In r (users (committed w)) -> u_phone r <> JStr phone) ->
   get_api_user e phone w
   = (Returned, w, [sent1; EvRespond 404 (MessageBody "User not found")])) /\
  (on_profileSql e = None ->
   (exists r, In r (users (committed w)) /\ u_phone r = JStr phone) ->
   exists user,
     In user (users (committed w)) /\ u_phone user = JStr phone /\
     (forall message,
        on_historySql e = Some message ->
        get_api_user e phone w
        = (Returned, w, [sent1; sent2; EvRespond 500 (ErrorBody message)])) /\
     (on_historySql e = None ->
      exists history,
        get_api_user e phone w
        = (Returned, w, [sent1; sent2; EvRespond 200 (Profile user history)]) /\
        Permutation history
          (filter (fun o => value_eqb (o_user_phone o) (JStr phone))
                  (orders (committed w))) /\
        descending o_created_at history)).
Proof.
  intros sent1 sent2. unfold get_api_user. split; [ | split].
  - intros message ->. reflexivity.
  - intros -> Hnone. cbn.
    replace (select_profile (JStr phone) (committed w)) with (@nil user_row);
      [reflexivity | ].
    symmetry. unfold select_profile. apply filter_absent_key.
    rewrite in_map_iff. intros (r & Hphone & Hin). now apply (Hnone r).
  - intros -> (r & Hin & Hphone). cbn.
    destruct (select_profile (JStr phone) (committed w)) as [ | user rest] eqn:E.
    + exfalso. unfold select_profile in E.
      assert (In r (filter (fun x => value_eqb (u_phone x) (JStr phone))
                      (users (committed w)))) as Hr
        by (apply filter_In; split; [exact Hin | now apply value_eqb_eq]).
      rewrite E in Hr. exact Hr.
    + assert (In user (select_profile (JStr phone) (committed w))) as Huser
        by (rewrite E; now left).
      unfold select_profile in Huser. apply filter_In in Huser.
      destruct Huser as [Huser Hsame]. apply value_eqb_eq in Hsame.
      exists user. repeat split; try assumption.
      * intros message ->. reflexivity.
      * intros ->. eexists. split; [reflexivity | ].
        split; [apply order_by_desc_perm | apply order_by_desc_sorted].
Qed.

Lemma profile_lookup_witness :
  exists user,
    In user (users (committed Sample.busy)) /\ u_phone user = JStr "555" /\
    (forall message,
       on_historySql Sample.reads_fine = Some message ->
       get_api_user Sample.reads_fine "555" Sample.busy
       = (Returned, Sample.busy,
          [EvQuery (profileSql (JStr "555")); EvQuery (historySql (JStr "555"));
           EvRespond 500 (ErrorBody message)])) /\
    (on_historySql Sample.reads_fine = None ->
     exists history,
       get_api_user Sample.reads_fine "555" Sample.busy
       = (Returned, Sample.busy,
          [EvQuery (profileSql (JStr "555")); EvQuery (historySql (JStr "555"));
           EvRespond 200 (Profile user history)]) /\
       Permutation history
         (filter (fun o => value_eqb (o_user_phone o) (JStr "555"))
                 (orders (committed Sample.busy))) /\
       descending o_created_at history).
Proof.
  apply (proj2 (proj2 (profile_lookup Sample.reads_fine "555" Sample.busy))).
  - reflexivity.
  - exists (mkUser (JStr "555") (JStr "A") (JStr "X")).
    split; [now left | reflexivity].
Defined.

(** C8: the product listing answers 200 with every row of [products],
    each once, highest [id] first; when the query fails it answers 500
    with [{error: message}] and nothing else.  Either way one statement is
    sent and one response. *)
Theorem products_listing (w : world) :
  (forall message,
     get_api_products (Some message) w
     = (Returned, w, [EvQuery productsSql; EvRespond 500 (ErrorBody message)])) /\
  (exists results,
     get_api_products None w
     = (Returned, w, [EvQuery productsSql; EvRespond 200 (ProductList results)]) /\
     Permutation results (products (committed w)) /\
     descending p_id results).
Proof.
  split.
  - reflexivity.
  - eexists. split; [reflexivity | ].
    split; [apply order_by_desc_perm | apply order_by_desc_sorted].
Qed.

(** ** The handlers on the sample data *)

Example products_listing_sample :
  get_api_products None Sample.idle
  = (Returned, Sample.idle,
     [EvQuery productsSql;
      EvRespond 200
        (ProductList [mkProduct 3 [("name", JStr "Polish")];
                      mkProduct 2 [("name", JStr "Wax")];
                      mkProduct 1 [("name", JStr "Widget")]])]).
Proof. reflexivity. Qed.

Example profile_sample :
  get_api_user Sample.reads_fine "555" Sample.busy
  = (Returned, Sample.busy,
     [EvQuery (profileSql (JStr "555")); EvQuery (historySql (JStr "555"));
      EvRespond 200
        (Profile (mkUser (JStr "555") (JStr "A") (JStr "X"))
           [mkOrder 9 (JStr "555") Sample.nine_99 (JStr "Processing")
                    (JStr "Card") (JStr "Y") 200;
            mkOrder 7 (JStr "555") Sample.nine_99 (JStr "Processing")
                    (JStr "COD") (JStr "X") 100])]).
Proof. reflexivity. Qed.

Example unknown_phone_sample :
  get_api_user Sample.reads_fine "000" Sample.busy
  = (Returned, Sample.busy,
     [EvQuery (profileSql (JStr "000"));
      EvRespond 404 (MessageBody "User not found")]).
Proof. reflexivity. Qed.

(** The end-to-end example: the order is placed, then read back. *)
Example order_then_profile_sample :
  exists w' tr,
    post_api_orders (Sample.store_fine 7 100) Sample.widget_order Sample.idle
    = (Returned, w', tr) /\
    responses tr = [(200, OrderPlaced "Order placed successfully!" 7)] /\
    in_use w' = in_use Sample.idle /\
    responses (snd (get_api_user Sample.reads_fine "555" w'))
    = [(200,
        Profile (mkUser (JStr "555") (JStr "A") (JStr "X"))
          [mkOrder 7 (JStr "555") Sample.nine_99 (JStr "Processing")
                   (JStr "COD") (JStr "X") 100])].
Proof. do 2 eexists. repeat split. Qed.

Example string_items_sample :
  fst (fst (post_api_orders (Sample.store_fine 7 100)
              [("customer", JBool true); ("items", JStr "abc")] Sample.idle))
  = Threw "TypeError: items.map is not a function".
Proof. reflexivity. Qed.

Example zero_length_object_sample :
  post_api_orders (Sample.store_fine 7 100)
    [("customer", JObj []);
     ("items", JObj [("length", JNum (S754_zero false))])] Sample.idle
  = (Returned, Sample.idle,
     [EvRespond 400 (MessageBody "Missing order details")]).
Proof. reflexivity. Qed.

(** * Further properties of the handlers *)

(** ** Shared facts *)

Lemma added_app {A : Type} (before rows : list A) :
  added before (before ++ rows) = rows.
Proof.
  unfold added. induction before as [ | x before IH]; simpl; [reflexivity | exact IH].
Qed.

Lemma added_nothing {A : Type} (before : list A) : added before before = [].
Proof.
  rewrite <- (app_nil_r before) at 2. apply added_app.
Qed.

(** Validation lets an empty array through never. *)
Lemma validated_array_not_empty (customer : value) (elems : list value) :
  missing_details customer (JArr elems) = false -> elems <> [].
Proof.
  unfold missing_details. intros H ->. simpl in H.
  now rewrite orb_true_r in H.
Qed.

(** The committed tables of a run that is not answered 200. *)
Lemma unplaced_order_commits_nothing
    (e : order_replies) (req_body : Js.object) (w : world)
    (c : completion) (w' : world) (tr : list event) :
  post_api_orders e req_body w = (c, w', tr) ->
  map fst (responses tr) <> [200] ->
  committed w' = committed w.
Proof.
  intros Heq Hnot.
  pose proof (post_api_orders_run e req_body w) as R. rewrite Heq in R.
  inversion R; subst; clear R; try reflexivity.
  exfalso. apply Hnot. reflexivity.
Qed.

(** X1: a run of [POST /api/orders] whose callbacks all return sends
    exactly one response, its status is 200, 400 or 500, and sending it is
    the last thing the handler does (the connection, if one was leased, is
    released before); a run in which a callback throws sends none. *)
Theorem order_answered_once_at_the_end
    (e : order_replies) (req_body : Js.object) (w : world) :
  let c := fst (fst (post_api_orders e req_body w)) in
  let tr := snd (post_api_orders e req_body w) in
  match c with
  | Returned =>
      exists status answer,
        responses tr = [(status, answer)] /\
        (status = 200 \/ status = 400 \/ status = 500) /\
        last tr EvCommit = EvRespond status answer
  | Threw _ => responses tr = []
  end.
Proof.
  pose proof (post_api_orders_run e req_body w) as R.
  destruct (post_api_orders e req_body w) as [[c w'] tr].
  inversion R; subst; clear R; cbn;
    try reflexivity;
    do 2 eexists; (split; [reflexivity | split; [ | reflexivity]]); tauto.
Qed.

(** X2: an order is committed whole or not at all.  After any run, either
    the committed tables are exactly what they were and no 200 was sent,
    or the one response is the 200, no transaction is left open, and the
    three tables changed together: the customer upserted, one order row
    added, and one item row added per element of a non-empty [items]; the
    catalogue is the same. *)
Theorem order_commits_all_or_nothing
    (e : order_replies) (req_body : Js.object) (w : world) :
  let c := fst (fst (post_api_orders e req_body w)) in
  let w' := snd (fst (post_api_orders e req_body w)) in
  let tr := snd (post_api_orders e req_body w) in
  let customer := own req_body "customer" in
  (committed w' = committed w /\ ~ In 200 (map fst (responses tr))) \/
  (c = Returned /\ map fst (responses tr) = [200] /\ txn w' = None /\
   exists g elems,
     on_orderSql e = inr g /\
     own req_body "items" = JArr elems /\ elems <> [] /\
     committed w'
     = mkTables
         (upsert (mkUser (get customer "phone") (get customer "name")
                         (get customer "address"))
                 (users (committed w)))
         (orders (committed w) ++
            [mkOrder (insertId g) (get customer "phone") (own req_body "total")
                     (JStr "Processing") (own req_body "paymentMethod")
                     (get customer "address") (created_at g)])
         (order_items (committed w) ++ map (row_of (insertId g)) elems)
         (products (committed w))).
Proof.
  pose proof (post_api_orders_run e req_body w) as R.
  destruct (post_api_orders e req_body w) as [[c w'] tr].
  inversion R; subst; clear R; cbn;
    try (left; split; [reflexivity | ];
         intros H; repeat destruct H as [H | H]; (discriminate || exact H)).
  right. repeat (split; [reflexivity | ]).
  match goal with
  | H : orderItemsData _ _ = inr _ |- _ =>
      destruct (orderItemsData_inv _ _ _ H) as (elems & Hitems & ->)
  end.
  exists g, elems. repeat (split; [assumption | ]).
  split; [ | reflexivity].
  apply (validated_array_not_empty (own req_body "customer")).
  now rewrite <- Hitems.
Qed.

(** X3: after an order answered 200, the [orderId] of the response is
    the id of the one order row the tables gained, the tables gained at
    least one item row, and every item row gained carries that id and the
    quantity 1. *)
Theorem placed_items_belong_to_the_order
    (e : order_replies) (req_body : Js.object) (w : world)
    (c : completion) (w' : world) (tr : list event) :
  post_api_orders e req_body w = (c, w', tr) ->
  map fst (responses tr) = [200] ->
  exists orderId,
    responses tr = [(200, OrderPlaced "Order placed successfully!" orderId)] /\
    map o_id (added (orders (committed w)) (orders (committed w'))) = [orderId] /\
    added (order_items (committed w)) (order_items (committed w')) <> [] /\
    Forall (fun r => i_order_id r = orderId /\ i_quantity r = 1)
           (added (order_items (committed w)) (order_items (committed w'))).
Proof.
  intros Heq Hok.
  pose proof (post_api_orders_run e req_body w) as R. rewrite Heq in R.
  inversion R; subst; clear R; try discriminate.
  match goal with
  | H : orderItemsData _ _ = inr _ |- _ =>
      destruct (orderItemsData_inv _ _ _ H) as (elems & Hitems & ->)
  end.
  assert (elems <> []) as Hsome.
  { apply (validated_array_not_empty (own req_body "customer")).
    now rewrite <- Hitems. }
  exists (insertId g). cbn [committed apply orders order_items].
  rewrite !added_app. split; [reflexivity | split; [reflexivity | split]].
  - destruct elems; [contradiction | discriminate].
  - apply Forall_forall. intros r Hin. apply in_map_iff in Hin.
    destruct Hin as (item & <- & _). split; reflexivity.
Qed.

Lemma placed_items_belong_to_the_order_witness :
  exists orderId,
    responses (snd Sample.second_run)
    = [(200, OrderPlaced "Order placed successfully!" orderId)] /\
    map o_id (added (orders (committed (snd (fst Sample.first_run))))
                    (orders (committed (snd (fst Sample.second_run)))))
    = [orderId] /\
    added (order_items (committed (snd (fst Sample.first_run))))
          (order_items (committed (snd (fst Sample.second_run)))) <> [] /\
    Forall (fun r => i_order_id r = orderId /\ i_quantity r = 1)
           (added (order_items (committed (snd (fst Sample.first_run))))
                  (order_items (committed (snd (fst Sample.second_run))))).
Proof.
  assert (post_api_orders (Sample.store_fine 8 200) Sample.second_order
            (snd (fst Sample.first_run))
          = (Returned, snd (fst Sample.second_run), snd Sample.second_run))
    as Hrun by (vm_compute; reflexivity).
  exact (placed_items_belong_to_the_order _ _ _ _ _ _ Hrun eq_refl).
Defined.


(** X5: the two read routes change nothing and hold nothing: after
    [GET /api/user/:phone] and after [GET /api/products] the world is the
    one before, no connection was leased, begun, committed, rolled back or
    released by the handler, every statement sent is a [SELECT], and
    exactly one response is sent, as the last event. *)
Theorem reads_leave_the_world_alone
    (r : profile_replies) (phone : string) (err : option string) (w : world) :
  let profile := get_api_user r phone w in
  let listing := get_api_products err w in
  (fst profile = (Returned, w) /\ fst listing = (Returned, w)) /\
  (closing (snd profile) = [] /\ closing (snd listing) = []) /\
  Forall (fun s => verb_of s = Select)
         (statements (snd profile) ++ statements (snd listing)) /\
  Forall (fun ev => match ev with
                    | EvQuery _ | EvRespond _ _ => True
                    | _ => False
                    end) (snd profile ++ snd listing) /\
  (exists status answer,
      responses (snd profile) = [(status, answer)] /\
      last (snd profile) EvCommit = EvRespond status answer) /\
  (exists status answer,
      responses (snd listing) = [(status, answer)] /\
      last (snd listing) EvCommit = EvRespond status answer).
Proof.
  unfold get_api_user, get_api_products.
  destruct r as [[m1 | ] [m2 | ]]; destruct err as [m | ]; cbn;
    try destruct (select_profile (JStr phone) (committed w)); cbn;
    repeat split; repeat constructor; do 2 eexists; split; reflexivity.
Qed.

(** X13: an [items] value that passes validation without being an array
    (a non-empty string, a number, [true], an object) brings the handler
    down once the order row is inserted: with a connection, a transaction
    and both writes sent (their values format) and granted, [items.map]
    is not a function, the callback throws, the two writes stay
    uncommitted on a connection that is never released, and no response
    is sent. *)
Theorem non_array_items_throw
    (e : order_replies) (req_body : Js.object) (w : world)
    (u g : generated) :
  missing_details (own req_body "customer") (own req_body "items") = false ->
  (forall elems, own req_body "items" <> JArr elems) ->
  upsert_binds req_body = true ->
  insert_binds req_body = true ->
  on_getConnection e = None ->
  on_beginTransaction e = None ->
  on_userSql e = inr u ->
  on_orderSql e = inr g ->
  post_api_orders e req_body w
  = (Threw "TypeError: items.map is not a function",
     mkWorld (committed w)
             (Some (apply (insert_of req_body) g
                      (apply (upsert_of req_body) u (committed w))))
             (S (in_use w)),
     opening req_body).
Proof.
  intros Hvalid Hshape Hupsert Hinsert Hget Hbegin Huser Horder.
  assert (orderItemsData (insertId g) (own req_body "items")
          = inl "TypeError: items.map is not a function") as Hthrow.
  { destruct (own req_body "items") eqn:E; try reflexivity.
    now destruct (Hshape elems). }
  pose proof (post_api_orders_run e req_body w) as R.
  destruct (post_api_orders e req_body w) as [[c w'] tr].
  inversion R; subst; clear R; try congruence.
  all: repeat match goal with
         | H : on_userSql _ = inr ?x |- _ =>
             rewrite Huser in H; injection H as <-
         | H : on_orderSql _ = inr ?x |- _ =>
             rewrite Horder in H; injection H as <-
         | H : orderItemsData _ _ = inl ?x |- _ =>
             rewrite Hthrow in H; injection H as <-
         end.
  all: reflexivity.
Qed.

Lemma non_array_items_throw_witness :
  post_api_orders (Sample.store_fine 7 100)
    [("customer", JBool true); ("items", JStr "abc")] Sample.idle
  = (Threw "TypeError: items.map is not a function",
     mkWorld (committed Sample.idle)
       (Some (apply (insert_of [("customer", JBool true); ("items", JStr "abc")])
                (mkGenerated 7 100)
                (apply (upsert_of [("customer", JBool true);
                                   ("items", JStr "abc")])
                   Sample.no_result (committed Sample.idle))))
       (S (in_use Sample.idle)),
     opening [("customer", JBool true); ("items", JStr "abc")]).
Proof.
  apply (non_array_items_throw (Sample.store_fine 7 100)
           [("customer", JBool true); ("items", JStr "abc")] Sample.idle
           Sample.no_result (mkGenerated 7 100));
    try reflexivity.
  intros elems H. discriminate H.
Defined.

(** ** Orders seen through the read routes *)

Lemma key_selects_at_most_one (p : value) (t : list user_row) :
  NoDup (map u_phone t) ->
  (List.length (filter (fun x => value_eqb (u_phone x) p) t) <= 1)%nat.
Proof.
  induction t as [ | x t IH]; simpl; intros Hnd; [lia | ].
  inversion Hnd as [ | ? ? Hx Ht]; subst.
  destruct (value_eqb (u_phone x) p) eqn:E.
  - apply value_eqb_eq in E. subst p.
    rewrite filter_absent_key by exact Hx. simpl. lia.
  - now apply IH.
Qed.

(** What [GET /api/user/:phone] sends depends on the world only through
    the two selections it makes. *)
Lemma profile_reads_selections
    (r : profile_replies) (phone : string) (w1 w2 : world) :
  select_profile (JStr phone) (committed w1)
  = select_profile (JStr phone) (committed w2) ->
  select_history (JStr phone) (committed w1)
  = select_history (JStr phone) (committed w2) ->
  snd (get_api_user r phone w1) = snd (get_api_user r phone w2).
Proof.
  intros Hprofile Hhistory. unfold get_api_user.
  destruct r as [[m1 | ] [m2 | ]]; cbn; try reflexivity;
    rewrite Hprofile;
    destruct (select_profile (JStr phone) (committed w2)); cbn;
    try reflexivity.
  now rewrite Hhistory.
Qed.

Lemma listing_reads_products (err : option string) (w1 w2 : world) :
  products (committed w1) = products (committed w2) ->
  snd (get_api_products err w1) = snd (get_api_products err w2).
Proof.
  intros Hsame. unfold get_api_products, select_products.
  destruct err; cbn; [reflexivity | now rewrite Hsame].
Qed.

(** X6: an order placed for a phone given as a string is read back by
    [GET /api/user/:phone]: over a customers table keyed by phone, and
    with both reads succeeding, the answer is 200, its [user] is the phone
    with the name and the address of the order just placed, and its
    [orders] are the history from before plus the new order row. *)
Theorem placed_order_is_in_the_profile
    (e : order_replies) (req_body : Js.object) (w : world)
    (c : completion) (w' : world) (tr : list event)
    (r : profile_replies) (phone : string) :
  primary_key (committed w) ->
  get (own req_body "customer") "phone" = JStr phone ->
  post_api_orders e req_body w = (c, w', tr) ->
  map fst (responses tr) = [200] ->
  on_profileSql r = None ->
  on_historySql r = None ->
  exists g history,
    on_orderSql e = inr g /\
    get_api_user r phone w'
    = (Returned, w',
       [EvQuery (profileSql (JStr phone)); EvQuery (historySql (JStr phone));
        EvRespond 200
          (Profile (mkUser (JStr phone)
                           (get (own req_body "customer") "name")
                           (get (own req_body "customer") "address"))
                   history)]) /\
    Permutation history
      (mkOrder (insertId g) (JStr phone) (own req_body "total")
               (JStr "Processing") (own req_body "paymentMethod")
               (get (own req_body "customer") "address") (created_at g)
       :: select_history (JStr phone) (committed w)) /\
    descending o_created_at history.
Proof.
  intros Hkey Hphone Heq Hok Hprofile Hhistory.
  destruct (placed_order_effect _ _ _ _ _ _ Heq Hok)
    as (u & g & i & elems & _ & _ & _ & Horder & _ & _ & _ & _ & -> & _).
  exists g. eexists. split; [exact Horder | ].
  unfold get_api_user. rewrite Hprofile, Hhistory. cbn.
  unfold select_profile. cbn. rewrite Hphone.
  rewrite (upsert_then_select _ _ _ _ Hkey). cbn.
  split; [reflexivity | split; [ | apply order_by_desc_sorted]].
  eapply Permutation_trans; [apply (order_by_desc_perm o_created_at) | ].
  rewrite ?filter_app. cbn. rewrite ?value_eqb_refl, ?String.eqb_refl.
  eapply Permutation_trans;
    [symmetry; apply Permutation_cons_append | ].
  apply perm_skip. symmetry. apply (order_by_desc_perm o_created_at).
Qed.

Lemma placed_order_is_in_the_profile_witness :
  exists g history,
    on_orderSql (Sample.store_fine 8 200) = inr g /\
    get_api_user Sample.reads_fine "555" (snd (fst Sample.second_run))
    = (Returned, snd (fst Sample.second_run),
       [EvQuery (profileSql (JStr "555")); EvQuery (historySql (JStr "555"));
        EvRespond 200
          (Profile (mkUser (JStr "555") (JStr "B") (JStr "Y")) history)]) /\
    Permutation history
      (mkOrder (insertId g) (JStr "555") Sample.nine_99 (JStr "Processing")
               (JStr "Card") (JStr "Y") (created_at g)
       :: select_history (JStr "555") (committed (snd (fst Sample.first_run)))) /\
    descending o_created_at history.
Proof.
  assert (post_api_orders (Sample.store_fine 8 200) Sample.second_order
            (snd (fst Sample.first_run))
          = (Returned, snd (fst Sample.second_run), snd Sample.second_run))
    as Hrun by (vm_compute; reflexivity).
  assert (primary_key (committed (snd (fst Sample.first_run)))) as Hkey
    by (repeat constructor; simpl; tauto).
  exact (placed_order_is_in_the_profile
           (Sample.store_fine 8 200) Sample.second_order _ _ _ _
           Sample.reads_fine "555" Hkey eq_refl Hrun eq_refl eq_refl eq_refl).
Defined.

(** X7: an order that is not answered 200, whether it was rejected, failed
    at the store or threw, cannot be told from no order at all through the
    read routes: [GET /api/user/:phone], for every phone, and
    [GET /api/products] send afterwards exactly what they would have sent
    before. *)
Theorem unplaced_order_is_invisible
    (e : order_replies) (req_body : Js.object) (w : world)
    (c : completion) (w' : world) (tr : list event) :
  post_api_orders e req_body w = (c, w', tr) ->
  map fst (responses tr) <> [200] ->
  forall (r : profile_replies) (phone : string) (err : option string),
    snd (get_api_user r phone w') = snd (get_api_user r phone w) /\
    snd (get_api_products err w') = snd (get_api_products err w).
Proof.
  intros Heq Hnot r phone err.
  pose proof (unplaced_order_commits_nothing _ _ _ _ _ _ Heq Hnot) as Hsame.
  split.
  - apply profile_reads_selections; now rewrite Hsame.
  - apply listing_reads_products. now rewrite Hsame.
Qed.

Lemma unplaced_order_is_invisible_witness :
  snd (get_api_user Sample.reads_fine "555"
         (snd (fst (post_api_orders (Sample.store_fine 7 100)
                      Sample.null_item_order Sample.busy))))
  = snd (get_api_user Sample.reads_fine "555" Sample.busy) /\
  snd (get_api_products None
         (snd (fst (post_api_orders (Sample.store_fine 7 100)
                      Sample.null_item_order Sample.busy))))
  = snd (get_api_products None Sample.busy).
Proof.
  apply (unplaced_order_is_invisible (Sample.store_fine 7 100)
           Sample.null_item_order Sample.busy
           (fst (fst (post_api_orders (Sample.store_fine 7 100)
                        Sample.null_item_order Sample.busy)))
           _
           (snd (post_api_orders (Sample.store_fine 7 100)
                   Sample.null_item_order Sample.busy))).
  - vm_compute. reflexivity.
  - vm_compute. discriminate.
Defined.

(** X8: no order touches the catalogue.  Whatever the store answers and
    however the run ends, placed, rejected, failed or thrown, the
    [products] table readers see afterwards is the one from before, and
    [GET /api/products] sends exactly what it would have sent before. *)
Theorem orders_leave_the_catalogue_alone
    (e : order_replies) (req_body : Js.object) (w : world)
    (err : option string) :
  let w' := snd (fst (post_api_orders e req_body w)) in
  products (committed w') = products (committed w) /\
  snd (get_api_products err w') = snd (get_api_products err w).
Proof.
  cbn zeta.
  assert (products (committed (snd (fst (post_api_orders e req_body w))))
          = products (committed w)) as Hsame.
  { pose proof (post_api_orders_run e req_body w) as R.
    destruct (post_api_orders e req_body w) as [[c w'] tr].
    inversion R; subst; clear R; reflexivity. }
  split; [exact Hsame | now apply listing_reads_products].
Qed.

(** ** Orders one after the other *)

Lemma upsert_idempotent (r : user_row) (t : list user_row) :
  upsert r (upsert r t) = upsert r t.
Proof.
  induction t as [ | x t IH]; simpl.
  - rewrite value_eqb_refl. now destruct r.
  - destruct (value_eqb (u_phone x) (u_phone r)) eqn:E; simpl; rewrite E.
    + reflexivity.
    + now rewrite IH.
Qed.

(** X9: the handler does not recognise a repeated order.  When the same
    body is placed twice, both answered 200, the second run leaves the
    customers table as the first left it, and the tables gain two order
    rows that differ in the generated columns only, each with its own
    copy of the item rows. *)
Theorem repeated_order_is_placed_twice
    (e1 e2 : order_replies) (req_body : Js.object)
    (w0 w1 w2 : world) (c1 c2 : completion) (tr1 tr2 : list event) :
  post_api_orders e1 req_body w0 = (c1, w1, tr1) ->
  map fst (responses tr1) = [200] ->
  post_api_orders e2 req_body w1 = (c2, w2, tr2) ->
  map fst (responses tr2) = [200] ->
  users (committed w2) = users (committed w1) /\
  exists g1 g2 elems,
    on_orderSql e1 = inr g1 /\ on_orderSql e2 = inr g2 /\
    own req_body "items" = JArr elems /\
    added (orders (committed w0)) (orders (committed w2))
    = map (fun g =>
             mkOrder (insertId g) (get (own req_body "customer") "phone")
                     (own req_body "total") (JStr "Processing")
                     (own req_body "paymentMethod")
                     (get (own req_body "customer") "address") (created_at g))
          [g1; g2] /\
    added (order_items (committed w0)) (order_items (committed w2))
    = map (row_of (insertId g1)) elems ++ map (row_of (insertId g2)) elems.
Proof.
  intros Hrun1 Hok1 Hrun2 Hok2.
  destruct (placed_order_effect _ _ _ _ _ _ Hrun1 Hok1)
    as (u1 & g1 & i1 & elems1 & _ & _ & _ & Horder1 & _ & _ & Hitems1 & _
        & -> & _).
  destruct (placed_order_effect _ _ _ _ _ _ Hrun2 Hok2)
    as (u2 & g2 & i2 & elems2 & _ & _ & _ & Horder2 & _ & _ & Hitems2 & _
        & -> & _).
  assert (elems2 = elems1) as -> by congruence.
  cbn [committed apply upsert_of insert_of users orders order_items].
  split; [apply upsert_idempotent | ].
  exists g1, g2, elems1. repeat (split; [assumption | ]).
  rewrite <- !app_assoc, !added_app. split; reflexivity.
Qed.

Lemma repeated_order_is_placed_twice_witness :
  exists w1 w2,
    users (committed w2) = users (committed w1) /\
    exists g1 g2 elems,
      on_orderSql (Sample.store_fine 7 100) = inr g1 /\
      on_orderSql (Sample.store_fine 8 200) = inr g2 /\
      own Sample.widget_order "items" = JArr elems /\
      added (orders (committed Sample.idle)) (orders (committed w2))
      = map (fun g =>
               mkOrder (insertId g) (JStr "555") Sample.nine_99
                       (JStr "Processing") (JStr "COD") (JStr "X")
                       (created_at g))
            [g1; g2] /\
      added (order_items (committed Sample.idle)) (order_items (committed w2))
      = map (row_of (insertId g1)) elems ++ map (row_of (insertId g2)) elems.
Proof.
  let v := eval vm_compute in
             (snd (fst (post_api_orders (Sample.store_fine 8 200)
                          Sample.widget_order (snd (fst Sample.first_run)))))
  in exists (snd (fst Sample.first_run)), v.
  refine (repeated_order_is_placed_twice
            (Sample.store_fine 7 100) (Sample.store_fine 8 200)
            Sample.widget_order Sample.idle _ _ Returned Returned
            (snd Sample.first_run)
            (snd (post_api_orders (Sample.store_fine 8 200)
                    Sample.widget_order (snd (fst Sample.first_run))))
            _ _ _ _);
    vm_compute; reflexivity.
Defined.

(** X10: served one after the other, order requests leave the pool as they
    found it for as long as no callback throws: every request before the
    last is one that returned, all requests are served unless the run
    ends on an uncaught exception, and the number of connections in use
    at the end is the number at the start, plus one exactly when the run
    ended on an uncaught exception. *)
Theorem served_requests_and_the_pool
    (requests : list (order_replies * Js.object)) (w : world) :
  let done := fst (serve requests w) in
  let w' := snd (serve requests w) in
  in_use w' = (in_use w + (if crashed done then 1 else 0))%nat /\
  Forall (fun c => c = Returned) (removelast done) /\
  (List.length done <= List.length requests)%nat /\
  (crashed done = false -> List.length done = List.length requests).
Proof.
  revert w. induction requests as [ | [e req_body] rest IH]; intros w.
  - cbn. repeat split; auto with arith.
  - cbn [serve].
    destruct (post_api_orders e req_body w) as [[c w1] tr] eqn:Heq.
    destruct c as [ | thrown].
    + destruct (returned_order_restores_pool _ _ _ _ _ Heq) as [Hpool _].
      specialize (IH w1).
      destruct (serve rest w1) as [done w2]. cbn [fst snd] in *.
      destruct IH as (Hin & Hall & Hlen & Hfull).
      assert (crashed (Returned :: done) = crashed done) as Hlast
        by (unfold crashed; destruct done; reflexivity).
      rewrite Hlast, Hin, Hpool.
      split; [reflexivity | split; [ | split]].
      * destruct done; [constructor | ].
        cbn [removelast] in *. now constructor.
      * cbn [List.length]. lia.
      * intros Hfine. cbn [List.length]. now rewrite (Hfull Hfine).
    + destruct (thrown_order_keeps_connection _ _ _ _ _ _ Heq)
        as (_ & Hpool & _).
      cbn. rewrite Hpool.
      split; [lia | split; [constructor | split; [lia | discriminate]]].
Qed.

(** X14: the customers table stays keyed by phone under any sequence of
    order requests, whatever the store answers to each: afterwards no two
    rows share a phone, so the lookup of a phone selects at most one
    row. *)
Theorem served_requests_keep_the_key
    (requests : list (order_replies * Js.object)) (w : world) :
  primary_key (committed w) ->
  primary_key (committed (snd (serve requests w))) /\
  forall phone : value,
    (List.length (select_profile phone (committed (snd (serve requests w))))
     <= 1)%nat.
Proof.
  intros Hkey.
  assert (primary_key (committed (snd (serve requests w)))) as Hafter.
  { revert w Hkey.
    induction requests as [ | [e req_body] rest IH]; intros w Hkey;
      [exact Hkey | ].
    cbn [serve].
    destruct (post_api_orders e req_body w) as [[c w1] tr] eqn:Heq.
    pose proof (post_api_orders_keeps_key _ _ _ _ _ _ Hkey Heq) as Hkey1.
    destruct c as [ | thrown]; [ | exact Hkey1].
    specialize (IH w1 Hkey1). now destruct (serve rest w1). }
  split; [exact Hafter | ].
  intros phone. now apply key_selects_at_most_one.
Qed.

Lemma served_requests_keep_the_key_witness :
  primary_key
    (committed
       (snd (serve [(Sample.store_fine 7 100, Sample.widget_order);
                    (Sample.items_fail, Sample.second_order);
                    (Sample.store_fine 8 200, Sample.second_order)]
               Sample.busy))) /\
  forall phone : value,
    (List.length
       (select_profile phone
          (committed
             (snd (serve [(Sample.store_fine 7 100, Sample.widget_order);
                          (Sample.items_fail, Sample.second_order);
                          (Sample.store_fine 8 200, Sample.second_order)]
                     Sample.busy))))
     <= 1)%nat.
Proof.
  apply served_requests_keep_the_key.
  repeat constructor. simpl. tauto.
Defined.

(** X16: the shipping address of an order is a snapshot.  After two
    orders placed one after the other from the same phone, the customer
    row holds the address of the second order, while the two order rows
    the tables gained hold each the address its own request carried. *)
Theorem shipping_address_is_a_snapshot
    (e1 e2 : order_replies) (first second : Js.object)
    (w0 w1 w2 : world) (c1 c2 : completion) (tr1 tr2 : list event) :
  primary_key (committed w0) ->
  get (own first "customer") "phone" = get (own second "customer") "phone" ->
  post_api_orders e1 first w0 = (c1, w1, tr1) ->
  map fst (responses tr1) = [200] ->
  post_api_orders e2 second w1 = (c2, w2, tr2) ->
  map fst (responses tr2) = [200] ->
  map u_city
      (select_profile (get (own first "customer") "phone") (committed w2))
  = [get (own second "customer") "address"] /\
  map o_shipping_address
      (added (orders (committed w0)) (orders (committed w2)))
  = [get (own first "customer") "address";
     get (own second "customer") "address"] /\
  map o_user_phone (added (orders (committed w0)) (orders (committed w2)))
  = [get (own first "customer") "phone"; get (own first "customer") "phone"].
Proof.
  intros Hkey Hphone Hrun1 Hok1 Hrun2 Hok2.
  pose proof (post_api_orders_keeps_key _ _ _ _ _ _ Hkey Hrun1) as Hkey1.
  destruct (placed_order_effect _ _ _ _ _ _ Hrun1 Hok1)
    as (u1 & g1 & i1 & elems1 & _ & _ & _ & _ & _ & _ & _ & _ & -> & _).
  destruct (placed_order_effect _ _ _ _ _ _ Hrun2 Hok2)
    as (u2 & g2 & i2 & elems2 & _ & _ & _ & _ & _ & _ & _ & _ & -> & _).
  unfold select_profile, primary_key in *.
  cbn [committed apply upsert_of insert_of users orders] in *.
  rewrite Hphone in Hkey1 |- *.
  rewrite upsert_then_select by exact Hkey1.
  rewrite <- !app_assoc, added_app. repeat split.
Qed.

Lemma shipping_address_is_a_snapshot_witness :
  map u_city (select_profile (JStr "555")
                (committed (snd (fst Sample.second_run))))
  = [JStr "Y"] /\
  map o_shipping_address
      (added (orders (committed Sample.idle))
             (orders (committed (snd (fst Sample.second_run)))))
  = [JStr "X"; JStr "Y"] /\
  map o_user_phone
      (added (orders (committed Sample.idle))
             (orders (committed (snd (fst Sample.second_run)))))
  = [JStr "555"; JStr "555"].
Proof.
  assert (primary_key (committed Sample.idle)) as Hkey by constructor.
  assert (post_api_orders (Sample.store_fine 7 100) Sample.widget_order
            Sample.idle
          = (Returned, snd (fst Sample.first_run), snd Sample.first_run))
    as Hrun1 by (vm_compute; reflexivity).
  assert (post_api_orders (Sample.store_fine 8 200) Sample.second_order
            (snd (fst Sample.first_run))
          = (Returned, snd (fst Sample.second_run), snd Sample.second_run))
    as Hrun2 by (vm_compute; reflexivity).
  exact (shipping_address_is_a_snapshot
           (Sample.store_fine 7 100) (Sample.store_fine 8 200)
           Sample.widget_order Sample.second_order
           Sample.idle _ _ _ _ _ _
           Hkey eq_refl Hrun1 eq_refl Hrun2 eq_refl).
Defined.

(** ** Validation, start-up and configuration *)

Lemma missing_details_shapes (customer items : value) :
  missing_details customer items = true <->
  truthy customer = false \/ truthy items = false \/ items = JArr [] \/
  exists props sign,
    items = JObj props /\ own props "length" = JNum (S754_zero sign).
Proof.
  unfold missing_details. rewrite !orb_true_iff, !negb_true_iff. split.
  - intros [[H | H] | H]; [tauto | tauto | ].
    destruct items as [ | | b | f | s | elems | props]; simpl in H;
      try discriminate.
    + right; left. simpl. now rewrite H.
    + destruct elems; [tauto | discriminate].
    + destruct (own props "length") as [ | | | [sign | | | ] | | | ] eqn:E;
        try discriminate.
      right; right; right. now exists props, sign.
  - intros [H | [H | [-> | (props & sign & -> & H)]]]; [tauto | tauto | | ].
    + right. reflexivity.
    + right. simpl. now rewrite H.
Qed.

(** X15: the 400 is sent exactly to the requests whose [customer] is
    falsy, whose [items] is falsy, whose [items] is the empty array, or
    whose [items] is an object with an own [length] equal to zero; every
    other request goes on to ask the pool for a connection. *)
Theorem rejected_exactly_when_details_missing
    (e : order_replies) (req_body : Js.object) (w : world) :
  let tr := snd (post_api_orders e req_body w) in
  let customer := own req_body "customer" in
  let items := own req_body "items" in
  (In 400 (map fst (responses tr)) <->
   truthy customer = false \/ truthy items = false \/ items = JArr [] \/
   exists props sign,
     items = JObj props /\ own props "length" = JNum (S754_zero sign)) /\
  (In 400 (map fst (responses tr)) \/ hd_error tr = Some EvGetConnection).
Proof.
  cbn zeta. rewrite <- missing_details_shapes.
  pose proof (post_api_orders_run e req_body w) as R.
  destruct (post_api_orders e req_body w) as [[c w'] tr].
  inversion R; subst; clear R; cbn;
    repeat match goal with
           | H : missing_details _ _ = _ |- _ => rewrite H; clear H
           end;
    (split; [ | tauto]);
    (split; [intros H; repeat destruct H as [H | H];
                       (discriminate || contradiction || reflexivity)
            | intros H; (discriminate || tauto)]).
Qed.

(** X11: the connection test made at start-up holds nothing afterwards.
    Whether the pool grants a connection or not, the tables, the open
    transaction and the number of connections in use are those from
    before, no statement is sent and nothing throws; a connection that
    was granted is released, and a failure is written to the console with
    its code and its message. *)
Theorem startup_check_holds_nothing
    (err : option connect_error) (w : world) :
  let lines := fst (fst (startup_check err w)) in
  let w' := snd (fst (startup_check err w)) in
  let tr := snd (startup_check err w) in
  (committed w' = committed w /\ txn w' = txn w /\ in_use w' = in_use w) /\
  (statements tr = [] /\ responses tr = []) /\
  match err with
  | Some failure =>
      tr = [EvGetConnection] /\
      lines = [ConsoleError [JStr "❌ Database Connection Failed:";
                             err_code failure];
               ConsoleError [JStr "Error Message:";
                             JStr (err_message failure)]]
  | None =>
      tr = [EvGetConnection; EvRelease] /\
      exists line, lines = [ConsoleLog line]
  end.
Proof.
  destruct err as [failure | ]; cbn; repeat split.
  eexists. reflexivity.
Qed.

(** X12: the two ports fall back on their defaults exactly when the
    environment variable is unset or empty; any other text, ["0"]
    included, is used as it is, as a string. *)
Theorem ports_fall_back_on_defaults :
  (db_port None = number_4000 /\ db_port (Some "") = number_4000) /\
  (PORT None = number_3000 /\ PORT (Some "") = number_3000) /\
  forall (a : ascii) (rest : string),
    db_port (Some (String a rest)) = JStr (String a rest) /\
    PORT (Some (String a rest)) = JStr (String a rest).
Proof.
  repeat split.
Qed.

(** ** The newest order *)

(** Any descending arrangement of a row and of rows with smaller keys
    starts with that row, however rows with equal keys are arranged. *)
Lemma newest_comes_first {A : Type} (key : A -> Z) (x : A) (olds h : list A) :
  Permutation h (x :: olds) ->
  descending key h ->
  (forall y, In y olds -> key y < key x) ->
  exists rest, h = x :: rest /\ Permutation rest olds /\ descending key rest.
Proof.
  intros Hperm Hsorted Holder.
  destruct h as [ | a rest].
  - apply Permutation_nil in Hperm. discriminate.
  - inversion Hsorted as [ | ? ? Hrest Hall]; subst.
    assert (a = x) as ->.
    { assert (In a (x :: olds)) as Ha
        by (apply (Permutation_in _ Hperm); now left).
      destruct Ha as [Ha | Ha]; [now symmetry | ].
      assert (In x (a :: rest)) as Hx
        by (apply (Permutation_in _ (Permutation_sym Hperm)); now left).
      destruct Hx as [Hx | Hx]; [exact Hx | ].
      rewrite Forall_forall in Hall.
      specialize (Hall x Hx). specialize (Holder a Ha). lia. }
    exists rest. split; [reflexivity | split; [ | exact Hrest]].
    now apply Permutation_cons_inv with (a := x).
Qed.

(** X17: an order placed later than every earlier order of its phone
    heads the history: when the [created_at] the store gave it is greater
    than that of each order row already stored for the phone, the
    [orders] selected for the phone afterwards start with the new row,
    and the rows after it are those selected before, in descending
    [created_at]. *)
Theorem latest_order_heads_the_history
    (e : order_replies) (req_body : Js.object) (w : world)
    (c : completion) (w' : world) (tr : list event)
    (g : generated) (phone : string) :
  get (own req_body "customer") "phone" = JStr phone ->
  post_api_orders e req_body w = (c, w', tr) ->
  map fst (responses tr) = [200] ->
  on_orderSql e = inr g ->
  (forall o, In o (orders (committed w)) ->
             o_user_phone o = JStr phone -> o_created_at o < created_at g) ->
  exists rest,
    select_history (JStr phone) (committed w')
    = mkOrder (insertId g) (JStr phone) (own req_body "total")
              (JStr "Processing") (own req_body "paymentMethod")
              (get (own req_body "customer") "address") (created_at g)
      :: rest /\
    Permutation rest (select_history (JStr phone) (committed w)) /\
    descending o_created_at rest.
Proof.
  intros Hphone Heq Hok Horder Hlater.
  destruct (placed_order_effect _ _ _ _ _ _ Heq Hok)
    as (u & g' & i & elems & _ & _ & _ & Horder' & _ & _ & _ & _ & -> & _).
  assert (g' = g) as -> by congruence.
  apply (newest_comes_first o_created_at).
  - unfold select_history.
    cbn [committed apply insert_of upsert_of orders].
    rewrite Hphone, filter_app.
    cbn [filter o_user_phone]. rewrite value_eqb_refl.
    eapply Permutation_trans; [apply (order_by_desc_perm o_created_at) | ].
    eapply Permutation_trans; [symmetry; apply Permutation_cons_append | ].
    apply perm_skip. symmetry. apply (order_by_desc_perm o_created_at).
  - apply order_by_desc_sorted.
  - intros o Hin. unfold select_history in Hin.
    apply (Permutation_in _ (order_by_desc_perm o_created_at _)) in Hin.
    apply filter_In in Hin. destruct Hin as [Hin Hsame].
    apply value_eqb_eq in Hsame. cbn [o_created_at]. now apply Hlater.
Qed.

Lemma latest_order_heads_the_history_witness :
  exists rest,
    select_history (JStr "555") (committed (snd (fst Sample.second_run)))
    = mkOrder 8 (JStr "555") Sample.nine_99 (JStr "Processing") (JStr "Card")
              (JStr "Y") 200
      :: rest /\
    Permutation rest
      (select_history (JStr "555") (committed (snd (fst Sample.first_run)))) /\
    descending o_created_at rest.
Proof.
  assert (post_api_orders (Sample.store_fine 8 200) Sample.second_order
            (snd (fst Sample.first_run))
          = (Returned, snd (fst Sample.second_run), snd Sample.second_run))
    as Hrun by (vm_compute; reflexivity).
  refine (latest_order_heads_the_history
            (Sample.store_fine 8 200) Sample.second_order _ _ _ _
            (mkGenerated 8 200) "555" eq_refl Hrun eq_refl eq_refl _).
  intros o [<- | []] _. reflexivity.
Defined.

(** ** A value the driver cannot format *)

Example unformattable_name_sample :
  post_api_orders (Sample.store_fine 7 100) Sample.unformattable_order
    Sample.idle
  = (Threw "TypeError: val.toString is not a function",
     mkWorld (committed Sample.idle) (Some (committed Sample.idle)) 1,
     [EvGetConnection; EvBeginTransaction]).
Proof. reflexivity. Qed.
